(** * py_trees.blackboard: a shallow embedding and its properties

    The development follows [src/py_trees/blackboard.py]: the borg-style
    [Blackboard] store, the [ROSBlackboard] manager with its
    [SubBlackboard] watchers, and the blackboard behaviours
    ([ClearBlackboardVariable], [SetBlackboardVariable],
    [CheckBlackboardVariable], [WaitForBlackboardVariable]).

    Modelling conventions.
    - Python values are an inductive type; objects live in a heap and are
      held by reference, so that aliasing and cyclic object graphs can be
      expressed.  No function of the module mutates a nested object, so the
      heap is a read-only environment (a section variable).
    - The blackboard is a borg: every [Blackboard()] shares one [__dict__].
      That dictionary is threaded explicitly through every operation.
    - [try ... except AttributeError] is an explicit [result] type.
    - Attribute names range over variable and field names.  Names bound by
      the classes themselves (methods such as [set] and [get], dunder names,
      the methods of the builtin types) are outside the model, and floats are
      not modelled.
    - Recursion whose termination the source does not guarantee takes fuel;
      running out of fuel is the model of unbounded recursion. *)

From Stdlib Require Import Ascii String ZArith.
From stdpp Require Import base option list gmap strings pretty sorting.

Set Warnings "-register-all".

Open Scope string_scope.
Open Scope list_scope.

(** ** Python values and the object heap *)

Definition addr := nat.

Inductive value : Type :=
  | VNone
  | VBool (b : bool)
  | VInt (n : Z)
  | VStr (s : string)
  | VList (l : list value)
  | VRef (a : addr).

(** An object: whether it is callable, and the data attributes its type
    declares, in the order [dir(type(v))] lists them.  [getattr] reads the
    same attributes. *)
Record object : Type := Object {
  callable_flag : bool;
  attrs_of : list (string * value)
}.

Abbreviation heap := (gmap addr object).
Abbreviation pydict := (gmap string value).

(** Outcome of an attribute access: a value, or [AttributeError]. *)
Inductive result (A : Type) : Type :=
  | Ok (a : A)
  | AttributeError.
Arguments Ok {A} a.
Arguments AttributeError {A}.

Definition result_bind {A B} (r : result A) (f : A -> result B) : result B :=
  match r with
  | Ok a => f a
  | AttributeError => AttributeError
  end.

Definition is_Ok {A} (r : result A) : bool :=
  match r with Ok _ => true | AttributeError => false end.

(** ** Strings: the few [str] methods the module uses *)

Module PyStr.

(** [sep in s] for a one-character [sep]. *)
Fixpoint contains (sep : ascii) (s : string) : bool :=
  match s with
  | EmptyString => false
  | String c s' => if Ascii.eqb c sep then true else contains sep s'
  end.

(** [s.split(sep)] for a one-character [sep]: never the empty list. *)
Fixpoint split (sep : ascii) (s : string) : list string :=
  match s with
  | EmptyString => [EmptyString]
  | String c s' =>
      if Ascii.eqb c sep then EmptyString :: split sep s'
      else match split sep s' with
           | [] => [String c EmptyString]
           | w :: ws => String c w :: ws
           end
  end.

(** [sep.join(l)]. *)
Fixpoint join (sep : string) (l : list string) : string :=
  match l with
  | [] => EmptyString
  | [w] => w
  | w :: ws => w +:+ sep +:+ join sep ws
  end.

(** [s.startswith(c)] for a one-character prefix. *)
Definition startswith (c : ascii) (s : string) : bool :=
  match s with
  | EmptyString => false
  | String c' _ => Ascii.eqb c' c
  end.

Definition is_lower (c : ascii) : bool :=
  let n := Ascii.nat_of_ascii c in (97 <=? n)%nat && (n <=? 122)%nat.
Definition is_upper (c : ascii) : bool :=
  let n := Ascii.nat_of_ascii c in (65 <=? n)%nat && (n <=? 90)%nat.

Fixpoint forall_chars (p : ascii -> bool) (s : string) : bool :=
  match s with
  | EmptyString => true
  | String c s' => p c && forall_chars p s'
  end.
Fixpoint exists_chars (p : ascii -> bool) (s : string) : bool :=
  match s with
  | EmptyString => false
  | String c s' => p c || exists_chars p s'
  end.

(** [s.isupper()]: at least one cased character and no lowercase one. *)
Definition isupper (s : string) : bool :=
  exists_chars is_upper s && forall_chars (fun c => negb (is_lower c)) s.

End PyStr.

(** ** Attribute access *)

Section WithHeap.

Variable h : heap.

Fixpoint assoc (name : string) (l : list (string * value)) : result value :=
  match l with
  | [] => AttributeError
  | (k, v) :: l' => if String.eqb k name then Ok v else assoc name l'
  end.

(** [getattr(v, name)] on a value other than the blackboard. *)
Definition py_getattr (v : value) (name : string) : result value :=
  match v with
  | VRef a =>
      match h !! a with
      | Some o => assoc name (attrs_of o)
      | None => AttributeError
      end
  | _ => AttributeError
  end.

(** [callable(v)]. *)
Definition callable (v : value) : bool :=
  match v with
  | VRef a =>
      match h !! a with
      | Some o => callable_flag o
      | None => false
      end
  | _ => false
  end.

(** [dir(type(v))]: the attribute names the type of an object declares.
    [NoneType] and the builtin types only have dunder names and methods;
    [get_nested_keys], the one caller, skips both kinds, so they are left
    out. *)
Definition dir_type (v : value) : list string :=
  match v with
  | VRef a =>
      match h !! a with
      | Some o => (attrs_of o).*1
      | None => []
      end
  | _ => []
  end.

(** [isinstance(v, (bool, list, str, int, float))]. *)
Definition isinstance_leaf (v : value) : bool :=
  match v with
  | VBool _ | VInt _ | VStr _ | VList _ => true
  | VNone | VRef _ => false
  end.

End WithHeap.

(** ** class Blackboard *)

Module Blackboard.

(** [getattr(self, name)], [setattr(self, name, value)] and
    [delattr(self, name)] on the shared [__dict__]. *)
Definition getattr (bb : pydict) (name : string) : result value :=
  match bb !! name with
  | Some v => Ok v
  | None => AttributeError
  end.

Definition setattr (bb : pydict) (name : string) (v : value) : pydict :=
  <[name := v]> bb.

Definition delattr (bb : pydict) (name : string) : result pydict :=
  match bb !! name with
  | Some _ => Ok (delete name bb)
  | None => AttributeError
  end.

(** [Blackboard.set(name, value, overwrite)]: the returned boolean and the
    store afterwards. *)
Definition set (bb : pydict) (name : string) (v : value) (overwrite : bool)
  : bool * pydict :=
  if negb overwrite then
    match getattr bb name with
    | Ok _ => (false, bb)
    | AttributeError => (true, setattr bb name v)
    end
  else (true, setattr bb name v).

(** [Blackboard.get(name)]: [None] when the attribute is missing. *)
Definition get (bb : pydict) (name : string) : value :=
  match getattr bb name with
  | Ok v => v
  | AttributeError => VNone
  end.

End Blackboard.

(** [operator.attrgetter(name)(blackboard)]: the name is split on dots; the
    first segment is read from the blackboard, the others from the value
    reached so far. *)
Definition attrgetter (h : heap) (name : string) (bb : pydict) : result value :=
  match PyStr.split "." name with
  | [] => AttributeError
  | first :: rest =>
      foldl (fun acc seg => result_bind acc (fun v => py_getattr h v seg))
            (Blackboard.getattr bb first) rest
  end.

(** ** class ROSBlackboard.SubBlackboard *)

(** [cached_dict] starts as the empty dictionary [{}] and holds a pickle
    (the string [dumps] returned) from the first change check on. *)
Inductive cache (pickle : Type) : Type :=
  | CachedDict (d : pydict)
  | CachedPickle (p : pickle).
Arguments CachedDict {pickle} d.
Arguments CachedPickle {pickle} p.

(** [current_pickle != cached]: a string never equals a dictionary. *)
Definition pickle_ne {pickle} `{!EqDecision pickle}
    (current_pickle : pickle) (cached : cache pickle) : bool :=
  match cached with
  | CachedDict _ => true
  | CachedPickle p => negb (bool_decide (current_pickle = p))
  end.

(** A publication: the topic and the dictionary whose rendering
    ([__str__]) is sent. *)
Inductive event : Type :=
  | Publish (topic : string) (content : pydict).

Module SubBlackboard.

Record t (pickle : Type) : Type := Build {
  topic_name : string;
  attrs : list string;
  dict : pydict;
  cached_dict : cache pickle
}.
Arguments Build {pickle}.
Arguments topic_name {pickle}.
Arguments attrs {pickle}.
Arguments dict {pickle}.
Arguments cached_dict {pickle}.

Section Pickler.

Context {pickle : Type} `{!EqDecision pickle}.
Variable h : heap.
(** [cPickle.dumps(d, -1)]: a library function, taken as a parameter. *)
Variable dumps : heap -> pydict -> pickle.

Definition __init__ (topic_name : string) (attrs : list string) : t pickle :=
  Build topic_name attrs ∅ (CachedDict ∅).

(** The accessor [update_sub_blackboard] builds for one path. *)
Definition check_attr (attr : string) : pydict -> result value :=
  if PyStr.contains "/" attr
  then attrgetter h (PyStr.join "." (PyStr.split "/" attr))
  else attrgetter h attr.

(** One iteration of the loop of [update_sub_blackboard] on [self.dict]. *)
Definition update_one (bb : pydict) (d : pydict) (attr : string) : pydict :=
  match check_attr attr bb with
  | Ok v => <[attr := v]> d
  | AttributeError => d
  end.

Definition update_sub_blackboard (w : t pickle) (bb : pydict) : t pickle :=
  Build (topic_name w) (attrs w)
        (foldl (update_one bb) (dict w) (attrs w))
        (cached_dict w).

Definition is_changed (w : t pickle) (bb : pydict) : bool * t pickle :=
  let w1 := update_sub_blackboard w bb in
  let current_pickle := dumps h (dict w1) in
  let blackboard_changed := pickle_ne current_pickle (cached_dict w1) in
  (blackboard_changed,
   Build (topic_name w1) (attrs w1) (dict w1) (CachedPickle current_pickle)).

End Pickler.

End SubBlackboard.

(** ** class ROSBlackboard *)

(** The [attrs] argument of [initialize_sub_blackboard]: a list of paths, or
    anything that is not a list. *)
Inductive attrs_arg : Type :=
  | AttrsList (l : list string)
  | AttrsNotAList.

Module ROSBlackboard.

Record t (pickle : Type) : Type := Build {
  cached_blackboard_dict : cache pickle;
  sub_blackboards : list (SubBlackboard.t pickle)
}.
Arguments Build {pickle}.
Arguments cached_blackboard_dict {pickle}.
Arguments sub_blackboards {pickle}.

Section Pickler.

Context {pickle : Type} `{!EqDecision pickle}.
Variable h : heap.
Variable dumps : heap -> pydict -> pickle.

Definition __init__ : t pickle := Build (CachedDict ∅) [].

(** The [for attr in dir(type(v))] loop of [inner(v, k)], with the list
    [variables] it appends to passed through, and [rec] for the recursive
    call.  [None]: the recursion did not finish.  [Some AttributeError]:
    [getattr] raised. *)
Definition inner_loop
    (rec : value -> string -> list string -> option (result (list string)))
    (v : value) (k : string)
  : list string -> list string -> option (result (list string)) :=
  fix loop (names : list string) (variables : list string) :=
    match names with
    | [] => Some (Ok variables)
    | attr :: names' =>
        if negb (isinstance_leaf v) then
          if negb (PyStr.startswith "_" attr) then
            match py_getattr h v attr with
            | AttributeError => Some AttributeError
            | Ok value =>
                if negb (callable h value) then
                  if negb (PyStr.isupper attr) then
                    match rec value (k +:+ "/" +:+ attr)
                              (variables ++ [k +:+ "/" +:+ attr]) with
                    | Some (Ok variables') => loop names' variables'
                    | r => r
                    end
                  else loop names' variables
                else loop names' variables
            end
          else loop names' variables
        else loop names' variables
    end.

(** [inner(v, k)] of [get_nested_keys], at most [fuel] calls deep. *)
Fixpoint inner (fuel : nat) (v : value) (k : string) (variables : list string)
  : option (result (list string)) :=
  match fuel with
  | O => None
  | S fuel' => inner_loop (inner fuel') v k (dir_type h v) variables
  end.

(** [sorted(self.blackboard.__dict__)]: the keys in byte order. *)
Definition sorted_keys (bb : pydict) : list string :=
  merge_sort (fun a b => Is_true (String.leb a b)) (map_to_list bb).*1.

Fixpoint get_nested_keys_loop (fuel : nat) (bb : pydict) (keys : list string)
    (variables : list string) : option (result (list string)) :=
  match keys with
  | [] => Some (Ok variables)
  | key :: keys' =>
      match Blackboard.getattr bb key with
      | AttributeError => Some AttributeError
      | Ok v =>
          match inner fuel v key (variables ++ [key]) with
          | Some (Ok variables') => get_nested_keys_loop fuel bb keys' variables'
          | r => r
          end
      end
  end.

Definition get_nested_keys (fuel : nat) (bb : pydict)
  : option (result (list string)) :=
  get_nested_keys_loop fuel bb (sorted_keys bb) [].

(** [not topic_name]: [None] and the empty string are falsy. *)
Definition falsy (topic_name : option string) : bool :=
  match topic_name with
  | None => true
  | Some s => bool_decide (s = "")
  end.

(** [initialize_sub_blackboard(attrs, topic_name=None)]: the returned
    [topic_name] and the manager afterwards. *)
Definition initialize_sub_blackboard (rb : t pickle) (attrs : attrs_arg)
    (topic_name : option string) : option string * t pickle :=
  match attrs with
  | AttrsList l =>
      let topic_name :=
        if falsy topic_name
        then "sub_blackboard_" +:+ pretty (length (sub_blackboards rb))
        else default "" topic_name in
      let sub_blackboard := SubBlackboard.__init__ topic_name l in
      (Some topic_name,
       Build (cached_blackboard_dict rb)
             (sub_blackboards rb ++ [sub_blackboard]))
  | AttrsNotAList => (topic_name, rb)
  end.

(** The loop of [shutdown_sub_blackboard]: delete the first watcher whose
    topic is the requested one. *)
Fixpoint shutdown_loop (subs : list (SubBlackboard.t pickle)) (req : string)
  : bool * list (SubBlackboard.t pickle) :=
  match subs with
  | [] => (false, [])
  | sub_blackboard :: subs' =>
      if bool_decide (SubBlackboard.topic_name sub_blackboard = req)
      then (true, subs')
      else let '(found, rest) := shutdown_loop subs' req in
           (found, sub_blackboard :: rest)
  end.

Definition shutdown_sub_blackboard (rb : t pickle) (req : string)
  : bool * t pickle :=
  let '(found, subs) := shutdown_loop (sub_blackboards rb) req in
  (found, Build (cached_blackboard_dict rb) subs).

Definition is_changed (rb : t pickle) (bb : pydict) : bool * t pickle :=
  let current_pickle := dumps h bb in
  let blackboard_changed := pickle_ne current_pickle (cached_blackboard_dict rb) in
  (blackboard_changed, Build (CachedPickle current_pickle) (sub_blackboards rb)).

(** The loop of [publish_blackboard] over the watchers;
    [get_num_connections] gives the subscribers of each topic. *)
Fixpoint publish_subs (get_num_connections : string -> nat) (bb : pydict)
    (subs : list (SubBlackboard.t pickle))
  : list (SubBlackboard.t pickle) * list event :=
  match subs with
  | [] => ([], [])
  | sub_blackboard :: subs' =>
      let '(sub', out) :=
        if (0 <? get_num_connections
                   ("~" +:+ SubBlackboard.topic_name sub_blackboard))%nat
        then
          let '(changed, sub') :=
            SubBlackboard.is_changed h dumps sub_blackboard bb in
          if changed
          then (sub', [Publish ("~" +:+ SubBlackboard.topic_name sub')
                               (SubBlackboard.dict sub')])
          else (sub', [])
        else (sub_blackboard, []) in
      let '(rest, outs) := publish_subs get_num_connections bb subs' in
      (sub' :: rest, out ++ outs)
  end.

Definition publish_blackboard (rb : t pickle) (bb : pydict)
    (get_num_connections : string -> nat) : t pickle * list event :=
  let '(rb1, out) :=
    if (0 <? get_num_connections "~blackboard")%nat
    then
      let '(changed, rb1) := is_changed rb bb in
      if changed then (rb1, [Publish "~blackboard" bb]) else (rb1, [])
    else (rb, []) in
  let '(subs, outs) :=
    publish_subs get_num_connections bb (sub_blackboards rb1) in
  (Build (cached_blackboard_dict rb1) subs, out ++ outs).

End Pickler.

End ROSBlackboard.

(** ** The behaviours *)

(** Modelled from the spec: [common.Status] is not in the source; §3 gives
    the enumeration [{SUCCESS, FAILURE, RUNNING, INVALID}]. *)
Inductive Status : Type := SUCCESS | FAILURE | RUNNING | INVALID.

(** Modelled from the spec: [common.ClearingPolicy] is not in the source; §3
    gives the enumeration [{ON_INITIALISE, ON_SUCCESS}]. *)
Inductive ClearingPolicy : Type := ON_INITIALISE | ON_SUCCESS.

#[global] Instance Status_eq_dec : EqDecision Status.
Proof. solve_decision. Defined.
#[global] Instance ClearingPolicy_eq_dec : EqDecision ClearingPolicy.
Proof. solve_decision. Defined.

(** [v is None]. *)
Definition is_None (v : value) : bool :=
  match v with VNone => true | _ => false end.

(** [operator.eq], the default [comparison_operator]: [bool] is a subclass
    of [int], lists compare element by element, and an object without
    [__eq__] equals itself only. *)
Fixpoint operator_eq (v1 v2 : value) : bool :=
  match v1, v2 with
  | VNone, VNone => true
  | VBool b1, VBool b2 => Bool.eqb b1 b2
  | VBool b, VInt n | VInt n, VBool b => Z.eqb (Z.b2z b) n
  | VInt n1, VInt n2 => Z.eqb n1 n2
  | VStr s1, VStr s2 => String.eqb s1 s2
  | VList l1, VList l2 =>
      (fix go (l1 l2 : list value) : bool :=
         match l1, l2 with
         | [], [] => true
         | x :: l1', y :: l2' => operator_eq x y && go l1' l2'
         | _, _ => false
         end) l1 l2
  | VRef a1, VRef a2 => Nat.eqb a1 a2
  | _, _ => false
  end.

Module ClearBlackboardVariable.

Record t : Type := Build { variable_name : string }.

Definition initialise (c : t) (bb : pydict) : pydict :=
  match Blackboard.delattr bb (variable_name c) with
  | Ok bb' => bb'
  | AttributeError => bb
  end.

(** Modelled from the spec: [behaviours.Success], the base class, is not in
    the source; §4.5 gives its [update] as always [SUCCESS]. *)
Definition update (c : t) : Status := SUCCESS.

End ClearBlackboardVariable.

Module SetBlackboardVariable.

Record t : Type := Build { variable_name : string; variable_value : value }.

Definition initialise (c : t) (bb : pydict) : pydict :=
  (Blackboard.set bb (variable_name c) (variable_value c) true).2.

(** Modelled from the spec: [behaviours.Success.update], as above. *)
Definition update (c : t) : Status := SUCCESS.

End SetBlackboardVariable.

(** The logger calls and [feedback_message], which no operation reads, are
    left out of both behaviours. *)

Module CheckBlackboardVariable.

Record t : Type := Build {
  variable_name : string;
  expected_value : value;
  comparison_operator : value -> value -> bool;
  clearing_policy : ClearingPolicy;
  matching_result : option Status
}.

Definition __init__ (variable_name : string) (expected_value : value)
    (comparison_operator : value -> value -> bool)
    (clearing_policy : ClearingPolicy) : t :=
  Build variable_name expected_value comparison_operator clearing_policy None.

Definition set_matching_result (c : t) (r : option Status) : t :=
  Build (variable_name c) (expected_value c) (comparison_operator c)
        (clearing_policy c) r.

Definition initialise (c : t) : t :=
  if bool_decide (clearing_policy c = ON_INITIALISE)
  then set_matching_result c None
  else c.

(** The status [update] computes when nothing is cached: the [try] block
    and the comparison that follows it. *)
Definition evaluate (h : heap) (c : t) (bb : pydict) : Status :=
  match attrgetter h (variable_name c) bb with
  | Ok v =>
      if is_None (expected_value c) then SUCCESS
      else if comparison_operator c v (expected_value c) then SUCCESS
      else FAILURE
  | AttributeError => FAILURE
  end.

Definition update (h : heap) (c : t) (bb : pydict) : Status * t :=
  match matching_result c with
  | Some r => (r, c)
  | None =>
      let result := evaluate h c bb in
      if bool_decide (result = SUCCESS)
         && bool_decide (clearing_policy c = ON_SUCCESS)
      then (result, set_matching_result c None)
      else (result, set_matching_result c (Some result))
  end.

Definition terminate (c : t) (new_status : Status) : t :=
  if bool_decide (new_status = INVALID)
  then set_matching_result c None
  else c.

(** What the host engine can do to a behaviour between two looks at it. *)
Inductive step : t -> t -> Prop :=
  | step_initialise c : step c (initialise c)
  | step_update h c bb : step c (update h c bb).2
  | step_terminate c new_status : step c (terminate c new_status).

(** The states a behaviour goes through after its construction. *)
Inductive reachable : t -> Prop :=
  | reachable_init name expected cmp policy :
      reachable (__init__ name expected cmp policy)
  | reachable_step c c' : reachable c -> step c c' -> reachable c'.

End CheckBlackboardVariable.

Module WaitForBlackboardVariable.

Record t : Type := Build {
  variable_name : string;
  expected_value : value;
  comparison_operator : value -> value -> bool;
  clearing_policy : ClearingPolicy;
  matching_result : option Status
}.

Definition __init__ (variable_name : string) (expected_value : value)
    (comparison_operator : value -> value -> bool)
    (clearing_policy : ClearingPolicy) : t :=
  Build variable_name expected_value comparison_operator clearing_policy None.

Definition set_matching_result (w : t) (r : option Status) : t :=
  Build (variable_name w) (expected_value w) (comparison_operator w)
        (clearing_policy w) r.

Definition initialise (w : t) : t :=
  if bool_decide (clearing_policy w = ON_INITIALISE)
  then set_matching_result w None
  else w.

(** The status [update] computes when nothing is cached.  [hasattr] and the
    [getattr] after it are one lookup of the whole name on the blackboard. *)
Definition evaluate (w : t) (bb : pydict) : Status :=
  match Blackboard.getattr bb (variable_name w) with
  | AttributeError => RUNNING
  | Ok v =>
      if is_None (expected_value w) then SUCCESS
      else if comparison_operator w v (expected_value w) then SUCCESS
      else RUNNING
  end.

Definition update (w : t) (bb : pydict) : Status * t :=
  match matching_result w with
  | Some r => (r, w)
  | None =>
      let result := evaluate w bb in
      if bool_decide (result = SUCCESS)
         && bool_decide (clearing_policy w = ON_SUCCESS)
      then (result, set_matching_result w None)
      else if bool_decide (result ≠ RUNNING)
      then (result, set_matching_result w (Some result))
      else (result, w)
  end.

Definition terminate (w : t) (new_status : Status) : t :=
  if bool_decide (new_status = INVALID)
  then set_matching_result w None
  else w.

(** What the host engine can do to a behaviour between two looks at it. *)
Inductive step : t -> t -> Prop :=
  | step_initialise w : step w (initialise w)
  | step_update w bb : step w (update w bb).2
  | step_terminate w new_status : step w (terminate w new_status).

(** The states a behaviour goes through after its construction. *)
Inductive reachable : t -> Prop :=
  | reachable_init name expected cmp policy :
      reachable (__init__ name expected cmp policy)
  | reachable_step w w' : reachable w -> step w w' -> reachable w'.

End WaitForBlackboardVariable.

Module CheckVar := CheckBlackboardVariable.
Module WaitVar := WaitForBlackboardVariable.

(** ** The digest *)

(** Modelled from the spec: §3 speaks of structural equality of values
    (value equality, not identity), which the source leaves to
    [cPickle.dumps].  A [tree] is the structure of a value without object
    identities: what a reference points to is unfolded in place.  [TCut]
    marks the depth at which the unfolding stops. *)
Inductive tree : Type :=
  | TNone
  | TBool (b : bool)
  | TInt (n : Z)
  | TStr (s : string)
  | TList (l : list tree)
  | TObj (fields : list (string * tree))
  | TCut.

#[global] Instance tree_eq_dec : EqDecision tree.
Proof.
  refine (fix go (t1 t2 : tree) {struct t1} : Decision (t1 = t2) :=
    match t1, t2 with
    | TNone, TNone => left _
    | TBool b1, TBool b2 => cast_if (decide (b1 = b2))
    | TInt n1, TInt n2 => cast_if (decide (n1 = n2))
    | TStr s1, TStr s2 => cast_if (decide (s1 = s2))
    | TList l1, TList l2 =>
        cast_if (@decide (l1 = l2) (@list_eq_dec _ go l1 l2))
    | TObj f1, TObj f2 =>
        cast_if (@decide (f1 = f2)
                   (@list_eq_dec _ (@prod_eq_dec _ _ _ go) f1 f2))
    | TCut, TCut => left _
    | _, _ => right _
    end); clear go; congruence.
Defined.

(** Modelled from the spec: the structure of a value; references are
    followed [fuel] deep. *)
Fixpoint reify (h : heap) (fuel : nat) (v : value) {struct fuel} : tree :=
  (fix go (v : value) : tree :=
     match v with
     | VNone => TNone
     | VBool b => TBool b
     | VInt n => TInt n
     | VStr s => TStr s
     | VList l => TList (map go l)
     | VRef a =>
         match fuel, h !! a with
         | S fuel', Some o =>
             TObj (map (fun kv => (kv.1, reify h fuel' kv.2)) (attrs_of o))
         | _, _ => TCut
         end
     end) v.

(** Modelled from the spec: the structure of a value subset, every value
    unfolded deep enough to go once through every object of the heap. *)
Definition structure (h : heap) (d : pydict) : gmap string tree :=
  reify h (S (size h)) <$> d.


(** Modelled from the spec: [cPickle.dumps] is a library function, not in
    the source.  §3 and §4.2 describe the digest it stands for as a
    deterministic fingerprint of a value subset that does not depend on the
    order of unordered collections and is equal for two subsets exactly
    when they are structurally equal.  The model is the canonical listing
    of the structure of the subset. *)
Definition digest (h : heap) (d : pydict) : list (string * tree) :=
  map_to_list (structure h d).

(** ** Predicates the properties are stated with *)




(** The topic names of the active watchers. *)
Definition topic_names {pickle} (rb : ROSBlackboard.t pickle) : list string :=
  SubBlackboard.topic_name <$> ROSBlackboard.sub_blackboards rb.

(** ** Concrete stores and heaps used in the examples *)

Module Examples.

(** An object whose attribute [b] is [1], stored under [a]. *)
Definition nested_heap : heap := {[ 0%nat := Object false [("b", VInt 1)] ]}.
Definition nested_bb : pydict := {[ "a" := VRef 0%nat ]}.


(** Two distinct objects with the same contents. *)
Definition twin_heap : heap :=
  {[ 0%nat := Object false [("x", VInt 1)];
     1%nat := Object false [("x", VInt 1)] ]}.

Definition speed_bb (n : Z) : pydict := {[ "speed" := VInt n ]}.

(** The pickle type of the modelled digest. *)
Abbreviation pickle := (list (string * tree)).

(** A fresh manager, and the manager after three registrations and the
    removal of the first watcher. *)
Definition rb_empty : ROSBlackboard.t pickle := ROSBlackboard.__init__.
Definition rb_two : ROSBlackboard.t pickle :=
  let rb1 := (ROSBlackboard.initialize_sub_blackboard
                rb_empty (AttrsList ["speed"]) None).2 in
  (ROSBlackboard.initialize_sub_blackboard rb1 (AttrsList ["speed"]) None).2.

(** A watcher of [speed], polled once while [speed] was [1]. *)
Definition speed_watch : SubBlackboard.t pickle :=
  SubBlackboard.update_sub_blackboard ∅
    (SubBlackboard.__init__ "sub_blackboard_0" ["speed"]) (speed_bb 1).

End Examples.

(** ** The service callbacks of ROSBlackboard *)

Module Services.

Section Node.

Context {pickle : Type}.
(** [rospy.get_name()], the fully qualified name of the node: taken as a
    parameter. *)
Variable node_name : string.

(** [destroy_blackboard_watcher_service(req)], with [req.topic_name]. *)
Definition destroy_blackboard_watcher_service (rb : ROSBlackboard.t pickle)
    (req : string) : bool * ROSBlackboard.t pickle :=
  ROSBlackboard.shutdown_sub_blackboard rb req.

(** [list_blackboard_variables_service(req)]: the list the response
    carries. *)
Definition list_blackboard_variables_service (h : heap) (fuel : nat)
    (bb : pydict) : option (result (list string)) :=
  ROSBlackboard.get_nested_keys h fuel bb.

(** [spawn_blackboard_watcher_service(req)], with [req.variables]: the
    absolute topic name the response carries ([None] when no watcher was
    named), and the manager afterwards. *)
Definition spawn_blackboard_watcher_service (rb : ROSBlackboard.t pickle)
    (variables : attrs_arg) : option string * ROSBlackboard.t pickle :=
  let '(topic_name, rb') :=
    ROSBlackboard.initialize_sub_blackboard rb variables None in
  let absolute_topic_name :=
    if negb (ROSBlackboard.falsy topic_name)
    then Some (node_name +:+ "/" +:+ default "" topic_name)
    else None in
  (absolute_topic_name, rb').

End Node.

End Services.

(** ** The text form of the blackboard and of a watcher *)

Module Rendering.

Section Console.

(** The colour codes of [rocon_console.console] and the text form
    [str(value)] of a value, which ['{0}'.format(value)] and ["%s" % value]
    produce: taken as parameters. *)
Variables green cyan yellow reset : string.
Variable format_value : value -> string.

(** The line break ["\n"]. *)
Definition nl : string := String "010" EmptyString.

(** The loop that computes [max_length] over the keys. *)
Definition max_length (keys : list string) : nat :=
  foldl (fun max_length k =>
           if (max_length <? String.length k)%nat
           then String.length k else max_length) 0 keys.

Fixpoint spaces (n : nat) : string :=
  match n with
  | O => ""
  | S n' => String " " (spaces n')
  end.

(** ['{0: <{1}}'.format(key, width)]: [key] padded with spaces on the right
    up to [width], never cut. *)
Definition ljust (key : string) (width : nat) : string :=
  key +:+ spaces (width - String.length key).

(** The inner loop over the lines of a value that has several. *)
Definition render_lines (lines : list string) (s : string) : string :=
  foldl (fun s line => s +:+ yellow +:+ "    " +:+ line +:+ nl +:+ reset) s lines.

(** One iteration of the loop over the sorted keys: what is appended to
    [s] for [key]. *)
Definition render_key (max_length : nat) (d : pydict) (s : string)
    (key : string) : string :=
  match d !! key with
  | None => s
  | Some VNone =>
      s +:+ cyan +:+ "  " +:+ ljust key (max_length + 1) +:+ reset +:+ ": "
        +:+ yellow +:+ "-" +:+ nl +:+ reset
  | Some v =>
      let lines := PyStr.split "010" (format_value v) in
      if (1 <? length lines)%nat
      then render_lines lines
             (s +:+ cyan +:+ "  " +:+ ljust key (max_length + 1) +:+ reset
                +:+ ":" +:+ nl)
      else s +:+ cyan +:+ "  " +:+ ljust key (max_length + 1) +:+ reset
             +:+ ": " +:+ yellow +:+ format_value v +:+ nl +:+ reset
  end.

(** The part the two [__str__] methods have in common: the loop over the
    sorted keys, and the closing [console.reset]. *)
Definition render_dict (d : pydict) (s : string) : string :=
  foldl (render_key (max_length (map_to_list d).*1) d) s
        (ROSBlackboard.sorted_keys d)
  +:+ reset.

(** [Blackboard.__str__]. *)
Definition blackboard_str (bb : pydict) : string :=
  render_dict bb (green +:+ "Blackboard" +:+ nl +:+ reset).

(** [SubBlackboard.__str__]. *)
Definition sub_blackboard_str {pickle} (w : SubBlackboard.t pickle) : string :=
  render_dict (SubBlackboard.dict w) nl.

End Console.

End Rendering.

(** ** More predicates *)

(** A run of a check in which the engine never invalidates it: any number
    of [initialise], [update] and [terminate] with a status other than
    [INVALID]. *)
Inductive undisturbed (c : CheckVar.t) : CheckVar.t -> Prop :=
  | undisturbed_refl : undisturbed c c
  | undisturbed_initialise c' :
      undisturbed c c' -> undisturbed c (CheckVar.initialise c')
  | undisturbed_update c' h bb :
      undisturbed c c' -> undisturbed c (CheckVar.update h c' bb).2
  | undisturbed_terminate c' new_status :
      new_status <> INVALID ->
      undisturbed c c' -> undisturbed c (CheckVar.terminate c' new_status).


(** A listing of paths in which every path is a variable of the store or a
    public, not all-uppercase attribute name appended to a path of the
    listing. *)
Definition well_formed_listing (bb : pydict) (l : list string) : Prop :=
  forall p,
    p ∈ l ->
    is_Some (bb !! p)
    \/ exists k attr,
         p = k +:+ "/" +:+ attr
         /\ k ∈ l
         /\ PyStr.startswith "_" attr = false
         /\ PyStr.isupper attr = false.

(** * Properties *)

(** ** Blackboard *)


Lemma get_lookup (bb : pydict) (name : string) :
  Blackboard.get bb name = default VNone (bb !! name).
Proof.
  unfold Blackboard.get, Blackboard.getattr.
  by destruct (bb !! name).
Qed.





(** ** CheckBlackboardVariable and WaitForBlackboardVariable *)

(** The steps of the engine only touch the cached result. *)
Lemma check_step_config (c c' : CheckVar.t) :
  CheckVar.step c c' ->
  CheckVar.variable_name c' = CheckVar.variable_name c
  /\ CheckVar.expected_value c' = CheckVar.expected_value c
  /\ CheckVar.comparison_operator c' = CheckVar.comparison_operator c
  /\ CheckVar.clearing_policy c' = CheckVar.clearing_policy c.
Proof.
  destruct 1 as [c | h c bb | c new_status].
  - unfold CheckVar.initialise. by case_bool_decide.
  - unfold CheckVar.update.
    destruct (CheckVar.matching_result c); [done |].
    by destruct (_ && _).
  - unfold CheckVar.terminate. by case_bool_decide.
Qed.

(** A check never caches a status other than [SUCCESS] and [FAILURE], and
    under [ON_SUCCESS] it never caches [SUCCESS]. *)
Lemma check_cache_invariant (c : CheckVar.t) :
  CheckVar.reachable c ->
  (CheckVar.matching_result c = None
   \/ CheckVar.matching_result c = Some SUCCESS
   \/ CheckVar.matching_result c = Some FAILURE)
  /\ (CheckVar.clearing_policy c = ON_SUCCESS ->
      CheckVar.matching_result c <> Some SUCCESS).
Proof.
  induction 1 as [name expected cmp policy | c c' _ [IH1 IH2] Hstep].
  - split; [by left | done].
  - destruct Hstep as [c | h c bb | c new_status].
    + unfold CheckVar.initialise. case_bool_decide; [| done].
      split; [by left | done].
    + unfold CheckVar.update.
      destruct (CheckVar.matching_result c) eqn:Hm.
      { simpl. rewrite Hm. done. }
      assert (Hev : CheckVar.evaluate h c bb = SUCCESS
                    \/ CheckVar.evaluate h c bb = FAILURE).
      { unfold CheckVar.evaluate.
        destruct (attrgetter _ _ _); [| by right].
        destruct (is_None _); [by left |].
        destruct (CheckVar.comparison_operator _ _ _); [by left | by right]. }
      destruct (bool_decide (CheckVar.evaluate h c bb = SUCCESS)) eqn:Hs;
        destruct (bool_decide (CheckVar.clearing_policy c = ON_SUCCESS)) eqn:Hp;
        simpl.
      * split; [by left | done].
      * split.
        -- destruct Hev as [-> | ->]; [right; by left | right; by right].
        -- intros Hpol. by apply bool_decide_eq_false in Hp.
      * apply bool_decide_eq_false in Hs.
        split; [destruct Hev as [-> | ->]; [right; by left | right; by right] |].
        intros _ [= Heq]. done.
      * apply bool_decide_eq_false in Hs.
        split; [destruct Hev as [-> | ->]; [right; by left | right; by right] |].
        intros _ [= Heq]. done.
    + unfold CheckVar.terminate. case_bool_decide; [| done].
      split; [by left | done].
Qed.

(** Without a cached result, [update] returns what [evaluate] computes. *)
Lemma check_update_uncached (h : heap) (c : CheckVar.t) (bb : pydict) :
  CheckVar.matching_result c = None ->
  (CheckVar.update h c bb).1 = CheckVar.evaluate h c bb.
Proof.
  intros Hm. unfold CheckVar.update. rewrite Hm.
  by destruct (_ && _).
Qed.

Lemma wait_update_uncached (w : WaitVar.t) (bb : pydict) :
  WaitVar.matching_result w = None ->
  (WaitVar.update w bb).1 = WaitVar.evaluate w bb.
Proof.
  intros Hm. unfold WaitVar.update. rewrite Hm.
  destruct (_ && _); [done |]. by case_bool_decide.
Qed.






(** A wait only ever caches [SUCCESS], and nothing under [ON_SUCCESS]. *)
Lemma wait_cache_invariant (w : WaitVar.t) :
  WaitVar.reachable w ->
  (WaitVar.matching_result w = None \/ WaitVar.matching_result w = Some SUCCESS)
  /\ (WaitVar.clearing_policy w = ON_SUCCESS -> WaitVar.matching_result w = None).
Proof.
  induction 1 as [name expected cmp policy | w w' _ [IH1 IH2] Hstep].
  - split; [by left | done].
  - destruct Hstep as [w | w bb | w new_status].
    + unfold WaitVar.initialise. case_bool_decide; [| done].
      split; [by left | done].
    + unfold WaitVar.update.
      destruct (WaitVar.matching_result w) eqn:Hm.
      { simpl. rewrite Hm. done. }
      assert (Hev : WaitVar.evaluate w bb = SUCCESS
                    \/ WaitVar.evaluate w bb = RUNNING).
      { unfold WaitVar.evaluate.
        destruct (Blackboard.getattr _ _); [| by right].
        destruct (is_None _); [by left |].
        destruct (WaitVar.comparison_operator _ _ _); [by left | by right]. }
      destruct Hev as [-> | ->];
        destruct (WaitVar.clearing_policy w) eqn:Hp; simpl;
        rewrite ?Hm; simpl;
        (split; [first [by left | by right] | congruence]).
    + unfold WaitVar.terminate. case_bool_decide; [| done].
      split; [by left | done].
Qed.

(** [evaluate] of a wait is [SUCCESS] or [RUNNING]. *)
Lemma wait_evaluate_cases (w : WaitVar.t) (bb : pydict) :
  WaitVar.evaluate w bb = SUCCESS \/ WaitVar.evaluate w bb = RUNNING.
Proof.
  unfold WaitVar.evaluate.
  destruct (Blackboard.getattr _ _); [| by right].
  destruct (is_None _); [by left |].
  destruct (WaitVar.comparison_operator _ _ _); [by left | by right].
Qed.

(** C2: in every state a wait can reach, [update] returns [SUCCESS] or
    [RUNNING], never [FAILURE]; the cached result is never [RUNNING]: it is
    unset or [SUCCESS], and always unset under [ON_SUCCESS]; an [update]
    that returns [RUNNING] leaves it unset. *)
Theorem wait_never_fails (w : WaitVar.t) (bb : pydict) :
  WaitVar.reachable w ->
  ((WaitVar.update w bb).1 = SUCCESS \/ (WaitVar.update w bb).1 = RUNNING)
  /\ (WaitVar.update w bb).1 <> FAILURE
  /\ WaitVar.matching_result w <> Some RUNNING
  /\ (WaitVar.matching_result w = None \/ WaitVar.matching_result w = Some SUCCESS)
  /\ (WaitVar.clearing_policy w = ON_SUCCESS -> WaitVar.matching_result w = None)
  /\ WaitVar.matching_result (WaitVar.update w bb).2 <> Some RUNNING
  /\ ((WaitVar.update w bb).1 = RUNNING ->
      WaitVar.matching_result (WaitVar.update w bb).2 = None).
Proof.
  intros Hreach.
  destruct (wait_cache_invariant w Hreach) as [Hcache Hpol].
  assert (Hreach' : WaitVar.reachable (WaitVar.update w bb).2).
  { eapply WaitVar.reachable_step; [exact Hreach | apply WaitVar.step_update]. }
  destruct (wait_cache_invariant _ Hreach') as [Hcache' _].
  assert (Hres : (WaitVar.update w bb).1 = SUCCESS
                 \/ (WaitVar.update w bb).1 = RUNNING).
  { destruct Hcache as [Hm | Hm].
    - rewrite (wait_update_uncached w bb Hm). apply wait_evaluate_cases.
    - unfold WaitVar.update. rewrite Hm. by left. }
  split_and!.
  - exact Hres.
  - destruct Hres as [-> | ->]; done.
  - destruct Hcache as [-> | ->]; done.
  - exact Hcache.
  - exact Hpol.
  - destruct Hcache' as [-> | ->]; done.
  - intros Hrun. destruct Hcache as [Hm | Hm].
    + rewrite (wait_update_uncached w bb Hm) in Hrun.
      unfold WaitVar.update. rewrite Hm, Hrun. simpl. exact Hm.
    + unfold WaitVar.update in Hrun. rewrite Hm in Hrun. done.
Qed.

Lemma wait_never_fails_witness :
  let w := WaitVar.__init__ "ready" (VBool true) operator_eq ON_INITIALISE in
  (WaitVar.update w ∅).1 = RUNNING
  /\ (WaitVar.update w ∅).1 <> FAILURE
  /\ WaitVar.matching_result (WaitVar.update w ∅).2 = None.
Proof.
  destruct (wait_never_fails
              (WaitVar.__init__ "ready" (VBool true) operator_eq ON_INITIALISE)
              ∅ (WaitVar.reachable_init _ _ _ _))
    as (_ & Hnf & _ & _ & _ & _ & Hrun).
  split; [reflexivity |]. split; [exact Hnf |]. exact (Hrun eq_refl).
Defined.

(** C3: whatever is cached and whatever the clearing policy,
    [terminate(INVALID)] clears the cached result of a check and of a wait:
    the next [update] returns what [evaluate] computes from the store, as
    the [update] of a freshly constructed behaviour with the same
    parameters does. *)
Theorem terminate_invalid_forces_reevaluation
    (h : heap) (bb : pydict) (c : CheckVar.t) (w : WaitVar.t) :
  CheckVar.matching_result (CheckVar.terminate c INVALID) = None
  /\ (CheckVar.update h (CheckVar.terminate c INVALID) bb).1 = CheckVar.evaluate h c bb
  /\ CheckVar.update h (CheckVar.terminate c INVALID) bb
     = CheckVar.update h (CheckVar.__init__ (CheckVar.variable_name c)
                         (CheckVar.expected_value c) (CheckVar.comparison_operator c)
                         (CheckVar.clearing_policy c)) bb
  /\ WaitVar.matching_result (WaitVar.terminate w INVALID) = None
  /\ (WaitVar.update (WaitVar.terminate w INVALID) bb).1 = WaitVar.evaluate w bb
  /\ WaitVar.update (WaitVar.terminate w INVALID) bb
     = WaitVar.update (WaitVar.__init__ (WaitVar.variable_name w)
                      (WaitVar.expected_value w) (WaitVar.comparison_operator w)
                      (WaitVar.clearing_policy w)) bb.
Proof.
  split_and!.
  - reflexivity.
  - by rewrite check_update_uncached.
  - reflexivity.
  - reflexivity.
  - by rewrite wait_update_uncached.
  - reflexivity.
Qed.

(** ** SubBlackboard *)

Lemma update_one_lookup_eq (h : heap) (bb d : pydict) (k : string) :
  SubBlackboard.update_one h bb d k !! k
  = match SubBlackboard.check_attr h k bb with
    | Ok v => Some v
    | AttributeError => d !! k
    end.
Proof.
  unfold SubBlackboard.update_one.
  destruct (SubBlackboard.check_attr h k bb) as [v |]; [| done].
  apply lookup_insert_eq.
Qed.

Lemma update_one_lookup_ne (h : heap) (bb d : pydict) (a k : string) :
  a ≠ k -> SubBlackboard.update_one h bb d a !! k = d !! k.
Proof.
  intros Hne. unfold SubBlackboard.update_one.
  destruct (SubBlackboard.check_attr h a bb) as [v |]; [| done].
  by apply lookup_insert_ne.
Qed.

(** What [self.dict] holds under [k] after the loop of
    [update_sub_blackboard] ran over [attrs]. *)
Lemma update_fold_lookup (h : heap) (bb : pydict) (attrs : list string)
    (d : pydict) (k : string) :
  foldl (SubBlackboard.update_one h bb) d attrs !! k
  = match SubBlackboard.check_attr h k bb with
    | Ok v => if decide (k ∈ attrs) then Some v else d !! k
    | AttributeError => d !! k
    end.
Proof.
  revert d. induction attrs as [| a attrs IH]; intros d; cbn [foldl].
  - destruct (SubBlackboard.check_attr h k bb); [| done].
    rewrite decide_False; [done | apply not_elem_of_nil].
  - rewrite IH.
    destruct (decide (a = k)) as [-> | Hne].
    + rewrite update_one_lookup_eq.
      destruct (SubBlackboard.check_attr h k bb) as [v |]; [| done].
      rewrite (decide_True (P := k ∈ k :: attrs)) by apply list_elem_of_here.
      by case_decide.
    + rewrite (update_one_lookup_ne h bb d a k Hne).
      destruct (SubBlackboard.check_attr h k bb) as [v |]; [| done].
      destruct (decide (k ∈ attrs)) as [Hin | Hnin].
      * rewrite decide_True; [done | by apply list_elem_of_further].
      * rewrite decide_False; [done |].
        intros [Heq | Hin]%elem_of_cons; [by subst | done].
Qed.

(** C6, as the code has it: after [update_sub_blackboard], every path of
    [attrs] that resolves is in [self.dict] with the value it resolves to;
    a path that does not resolve is not an error and gets no entry of its
    own, so a key of [self.dict] is a resolving path of [attrs] or a key
    that was there before; and after the first update of a fresh watcher
    [self.dict] holds exactly the resolving paths of [attrs]. *)
Theorem update_sub_blackboard_spec {pickle : Type} (h : heap)
    (w : SubBlackboard.t pickle) (bb : pydict) (k : string) :
  SubBlackboard.attrs (SubBlackboard.update_sub_blackboard h w bb)
  = SubBlackboard.attrs w
  /\ (forall v,
        k ∈ SubBlackboard.attrs w ->
        SubBlackboard.check_attr h k bb = Ok v ->
        SubBlackboard.dict (SubBlackboard.update_sub_blackboard h w bb) !! k
        = Some v)
  /\ (is_Some (SubBlackboard.dict
                 (SubBlackboard.update_sub_blackboard h w bb) !! k) ->
      (k ∈ SubBlackboard.attrs w
       /\ exists v, SubBlackboard.check_attr h k bb = Ok v)
      \/ is_Some (SubBlackboard.dict w !! k))
  /\ (forall topic attrs v,
        SubBlackboard.dict
          (SubBlackboard.update_sub_blackboard h
             (SubBlackboard.__init__ (pickle := pickle) topic attrs) bb) !! k
        = Some v
        <-> k ∈ attrs /\ SubBlackboard.check_attr h k bb = Ok v).
Proof.
  split_and!.
  - reflexivity.
  - intros v Hin Hres. simpl. rewrite update_fold_lookup, Hres.
    by rewrite decide_True.
  - simpl. rewrite update_fold_lookup.
    destruct (SubBlackboard.check_attr h k bb) as [v |]; [| by right].
    case_decide; [left; eauto | by right].
  - intros topic attrs v. simpl. rewrite update_fold_lookup.
    destruct (SubBlackboard.check_attr h k bb) as [v' |].
    + case_decide.
      * split; [intros [= ->]; done | intros [_ [= ->]]; done].
      * rewrite lookup_empty. split; [done | intros [? _]; done].
    + rewrite lookup_empty. split; [done | intros [_ ?]; done].
Qed.

Lemma update_sub_blackboard_spec_witness :
  SubBlackboard.dict
    (SubBlackboard.update_sub_blackboard (pickle := Examples.pickle) ∅
       (SubBlackboard.__init__ "sub_blackboard_0" ["nope"; "speed"])
       (Examples.speed_bb 1)) !! "speed" = Some (VInt 1).
Proof.
  destruct (update_sub_blackboard_spec (pickle := Examples.pickle) ∅
              (SubBlackboard.__init__ "sub_blackboard_0" ["nope"; "speed"])
              (Examples.speed_bb 1) "speed") as (_ & H & _).
  apply H; [| reflexivity].
  apply list_elem_of_further, list_elem_of_here.
Defined.

(** C6 does not hold as stated: a watcher of [speed] that was polled while
    [speed] was [1] still has the entry after a poll on the empty store,
    where [speed] does not resolve. *)
Lemma update_sub_blackboard_counterexample :
  SubBlackboard.dict Examples.speed_watch !! "speed" = Some (VInt 1)
  /\ SubBlackboard.check_attr ∅ "speed" ∅ = AttributeError
  /\ SubBlackboard.dict
       (SubBlackboard.update_sub_blackboard ∅ Examples.speed_watch ∅)
     !! "speed" = Some (VInt 1).
Proof. by vm_compute. Qed.

(** ** ROSBlackboard: registration of watchers *)







(** ** ROSBlackboard.get_nested_keys *)





Lemma sorted_keys_lookup (bb : pydict) (key : string) :
  key ∈ ROSBlackboard.sorted_keys bb -> exists v, bb !! key = Some v.
Proof.
  unfold ROSBlackboard.sorted_keys. rewrite merge_sort_Permutation.
  intros ([k v] & -> & Hin)%list_elem_of_fmap.
  exists v. by apply elem_of_map_to_list.
Qed.






(** ** Change detection and publication *)

Section ChangeDetection.

Context {pickle : Type} `{!EqDecision pickle}.
Variable h : heap.
Variable dumps : heap -> pydict -> pickle.



End ChangeDetection.



(** ** The digest and the change check *)


(** Two distinct objects with the same contents have the same structure:
    the digest compares values, not identities. *)
Example digest_ignores_identity :
  VRef 0%nat <> VRef 1%nat
  /\ digest Examples.twin_heap {[ "k" := VRef 0%nat ]}
     = digest Examples.twin_heap {[ "k" := VRef 1%nat ]}.
Proof. split; [done | by vm_compute]. Qed.



(** ** The scenarios of the specification, run on the model *)

(** Scenario A: a check of [speed == 5] with [ON_INITIALISE] fails on the
    empty store and succeeds after [speed] is set and [initialise] ran. *)
Example scenario_A :
  let c0 := CheckVar.__init__ "speed" (VInt 5) operator_eq ON_INITIALISE in
  let tick1 := CheckVar.update ∅ (CheckVar.initialise c0) ∅ in
  let bb := (Blackboard.set ∅ "speed" (VInt 5) true).2 in
  let tick2 := CheckVar.update ∅ (CheckVar.initialise tick1.2) bb in
  tick1.1 = FAILURE /\ tick2.1 = SUCCESS.
Proof. by vm_compute. Qed.

(** Scenario C: a wait for [ready == True] runs while [ready] is absent and
    succeeds once it is set. *)
Example scenario_C :
  let w0 := WaitVar.initialise
              (WaitVar.__init__ "ready" (VBool true) operator_eq
                 ON_INITIALISE) in
  let tick1 := WaitVar.update w0 ∅ in
  let tick2 := WaitVar.update tick1.2 ∅ in
  let tick3 := WaitVar.update tick2.2 ∅ in
  let bb := (Blackboard.set ∅ "ready" (VBool true) true).2 in
  let tick4 := WaitVar.update tick3.2 bb in
  (tick1.1, tick2.1, tick3.1, tick4.1) = (RUNNING, RUNNING, RUNNING, SUCCESS).
Proof. by vm_compute. Qed.

(** Scenario D: a watcher of [speed] with a subscriber publishes on the
    first poll, not on a second poll of the same store, and once more after
    [speed] changed. *)
Example scenario_D :
  let rb0 := (ROSBlackboard.initialize_sub_blackboard
                Examples.rb_empty (AttrsList ["speed"]) None).2 in
  let subscribers topic :=
    if bool_decide (topic = "~sub_blackboard_0") then 1 else 0 in
  let poll1 := ROSBlackboard.publish_blackboard ∅ digest rb0
                 (Examples.speed_bb 1) subscribers in
  let poll2 := ROSBlackboard.publish_blackboard ∅ digest poll1.1
                 (Examples.speed_bb 1) subscribers in
  let poll3 := ROSBlackboard.publish_blackboard ∅ digest poll2.1
                 (Examples.speed_bb 2) subscribers in
  poll1.2 = [Publish "~sub_blackboard_0" (Examples.speed_bb 1)]
  /\ poll2.2 = []
  /\ poll3.2 = [Publish "~sub_blackboard_0" (Examples.speed_bb 2)].
Proof. by vm_compute. Qed.

(** * Further properties of the module *)

(** ** Blackboard, ClearBlackboardVariable, SetBlackboardVariable *)


(** [set] changes the named variable only: whatever [overwrite] is, every
    other name reads as before. *)
Theorem set_frame (bb : pydict) (name name' : string) (v : value)
    (overwrite : bool) :
  name <> name' ->
  Blackboard.get (Blackboard.set bb name v overwrite).2 name'
  = Blackboard.get bb name'.
Proof.
  intros Hne. rewrite !get_lookup. unfold Blackboard.set, Blackboard.getattr.
  destruct overwrite; simpl.
  - unfold Blackboard.setattr. by rewrite lookup_insert_ne.
  - destruct (bb !! name); simpl; [done |].
    unfold Blackboard.setattr. by rewrite lookup_insert_ne.
Qed.

Lemma set_frame_witness :
  Blackboard.get (Blackboard.set (Examples.speed_bb 1) "ready" VNone true).2
    "speed" = VInt 1.
Proof.
  exact (set_frame (Examples.speed_bb 1) "ready" "speed" VNone true
           ltac:(discriminate)).
Defined.



(** Setting a variable that was not there and then clearing it gives the
    store back; and after [SetBlackboardVariable.initialise] the variable
    reads as the configured value, whatever was there before. *)
Theorem set_then_clear (bb : pydict) (name : string) (v : value) :
  bb !! name = None ->
  ClearBlackboardVariable.initialise (ClearBlackboardVariable.Build name)
    (SetBlackboardVariable.initialise (SetBlackboardVariable.Build name v) bb)
  = bb
  /\ forall bb0 : pydict,
       Blackboard.get
         (SetBlackboardVariable.initialise
            (SetBlackboardVariable.Build name v) bb0) name = v.
Proof.
  intros Hnone. split.
  - unfold ClearBlackboardVariable.initialise, Blackboard.delattr,
      SetBlackboardVariable.initialise, Blackboard.set, Blackboard.setattr.
    simpl. rewrite lookup_insert_eq. by apply delete_insert_id.
  - intros bb0.
    unfold SetBlackboardVariable.initialise, Blackboard.set,
      Blackboard.setattr. simpl.
    by rewrite get_lookup, lookup_insert_eq.
Qed.

Lemma set_then_clear_witness :
  ClearBlackboardVariable.initialise (ClearBlackboardVariable.Build "speed")
    (SetBlackboardVariable.initialise
       (SetBlackboardVariable.Build "speed" (VInt 1)) ∅) = ∅.
Proof.
  exact (proj1 (set_then_clear ∅ "speed" (VInt 1) eq_refl)).
Defined.

(** ** Names with and without dots *)

Lemma split_nonempty (sep : ascii) (s : string) : PyStr.split sep s <> [].
Proof.
  destruct s as [| c s]; simpl; [done |].
  destruct (Ascii.eqb c sep); [done |].
  by destruct (PyStr.split sep s).
Qed.

Lemma split_no_sep (sep : ascii) (s : string) :
  PyStr.contains sep s = false -> PyStr.split sep s = [s].
Proof.
  induction s as [| c s IH]; simpl; [done |].
  destruct (Ascii.eqb c sep); [done |].
  intros Hs. by rewrite (IH Hs).
Qed.


(** On a name without a dot, [attrgetter] is [getattr]. *)
Lemma attrgetter_flat (h : heap) (name : string) (bb : pydict) :
  PyStr.contains "." name = false ->
  attrgetter h name bb = Blackboard.getattr bb name.
Proof.
  intros Hflat. unfold attrgetter. by rewrite (split_no_sep _ _ Hflat).
Qed.

(** ** The life cycle of a check and of a wait *)

(** On a variable name without a dot a check and a wait with the same
    parameters look at the same variable: the check succeeds exactly when
    the wait does, and fails exactly when the wait keeps running. *)
Theorem check_wait_agree (h : heap) (bb : pydict) (name : string)
    (expected : value) (cmp : value -> value -> bool)
    (p1 p2 : ClearingPolicy) (m1 m2 : option Status) :
  PyStr.contains "." name = false ->
  (CheckVar.evaluate h (CheckVar.Build name expected cmp p1 m1) bb = SUCCESS
   <-> WaitVar.evaluate (WaitVar.Build name expected cmp p2 m2) bb = SUCCESS)
  /\ (CheckVar.evaluate h (CheckVar.Build name expected cmp p1 m1) bb = FAILURE
      <-> WaitVar.evaluate (WaitVar.Build name expected cmp p2 m2) bb
          = RUNNING).
Proof.
  intros Hflat. unfold CheckVar.evaluate, WaitVar.evaluate; simpl.
  rewrite (attrgetter_flat h name bb Hflat).
  destruct (Blackboard.getattr bb name) as [v |]; [| done].
  destruct (is_None expected); [done |].
  by destruct (cmp v expected).
Qed.

Lemma check_wait_agree_witness :
  CheckVar.evaluate ∅
    (CheckVar.__init__ "speed" (VInt 5) operator_eq ON_INITIALISE)
    (Examples.speed_bb 5) = SUCCESS
  <-> WaitVar.evaluate
        (WaitVar.__init__ "speed" (VInt 5) operator_eq ON_SUCCESS)
        (Examples.speed_bb 5) = SUCCESS.
Proof.
  exact (proj1 (check_wait_agree ∅ (Examples.speed_bb 5) "speed" (VInt 5)
                  operator_eq ON_INITIALISE ON_SUCCESS None None eq_refl)).
Defined.



(** A check memoizes its result: unless the result is a [SUCCESS] under
    [ON_SUCCESS], the next [update] returns it again without looking at the
    store, and changes nothing. *)
Theorem check_memoizes (h h' : heap) (c : CheckVar.t) (bb bb' : pydict) :
  ~ ((CheckVar.update h c bb).1 = SUCCESS
     /\ CheckVar.clearing_policy c = ON_SUCCESS) ->
  CheckVar.update h' (CheckVar.update h c bb).2 bb' = CheckVar.update h c bb.
Proof.
  intros Hnot. unfold CheckVar.update in *.
  destruct (CheckVar.matching_result c) as [r |] eqn:Hm; simpl in *.
  - by rewrite Hm.
  - destruct (bool_decide (CheckVar.evaluate h c bb = SUCCESS)
              && bool_decide (CheckVar.clearing_policy c = ON_SUCCESS))
      eqn:Hcond; simpl in *.
    + apply andb_prop in Hcond as [Hs%bool_decide_eq_true
                                    Hp%bool_decide_eq_true].
      by destruct Hnot.
    + done.
Qed.

Lemma check_memoizes_witness :
  let c := CheckVar.__init__ "speed" (VInt 5) operator_eq ON_INITIALISE in
  (CheckVar.update ∅ (CheckVar.update ∅ c (Examples.speed_bb 5)).2 ∅).1
  = SUCCESS.
Proof.
  simpl.
  rewrite (check_memoizes ∅ ∅
             (CheckVar.__init__ "speed" (VInt 5) operator_eq ON_INITIALISE)
             (Examples.speed_bb 5) ∅).
  - reflexivity.
  - intros [_ Hpol]. discriminate Hpol.
Defined.

(** An [update] that returned [FAILURE] has cached it. *)
Lemma check_failure_cached (h : heap) (c : CheckVar.t) (bb : pydict) :
  (CheckVar.update h c bb).1 = FAILURE ->
  CheckVar.matching_result (CheckVar.update h c bb).2 = Some FAILURE.
Proof.
  unfold CheckVar.update.
  destruct (CheckVar.matching_result c) as [r |] eqn:Hm; simpl.
  - intros ->. exact Hm.
  - destruct (bool_decide (CheckVar.evaluate h c bb = SUCCESS)) eqn:Hs; simpl.
    + apply bool_decide_eq_true in Hs. rewrite Hs.
      destruct (bool_decide _); simpl; done.
    + by intros ->.
Qed.

(** Under [ON_SUCCESS] a failure is sticky: once [update] returned
    [FAILURE], every later [update] returns [FAILURE] whatever the store
    holds, through any number of [initialise], [update] and [terminate]
    calls, as long as the check is not invalidated. *)
Theorem check_failure_is_sticky (h0 h : heap) (c c' : CheckVar.t)
    (bb0 bb : pydict) :
  CheckVar.clearing_policy c = ON_SUCCESS ->
  (CheckVar.update h0 c bb0).1 = FAILURE ->
  undisturbed (CheckVar.update h0 c bb0).2 c' ->
  CheckVar.matching_result c' = Some FAILURE
  /\ (CheckVar.update h c' bb).1 = FAILURE.
Proof.
  intros Hpol Hfail Hrun.
  assert (Hinv : CheckVar.matching_result c' = Some FAILURE
                 /\ CheckVar.clearing_policy c' = ON_SUCCESS).
  { induction Hrun as [| c2 _ [IHm IHp] | c2 h1 bb1 _ [IHm IHp]
                       | c2 s Hs _ [IHm IHp]].
    - split; [by apply check_failure_cached |].
      unfold CheckVar.update.
      destruct (CheckVar.matching_result c); [done |].
      by destruct (_ && _).
    - unfold CheckVar.initialise. rewrite IHp. done.
    - unfold CheckVar.update. rewrite IHm. done.
    - unfold CheckVar.terminate.
      rewrite bool_decide_eq_false_2 by done. done. }
  destruct Hinv as [Hm _]. split; [exact Hm |].
  unfold CheckVar.update. by rewrite Hm.
Qed.

Lemma check_failure_is_sticky_witness :
  let c := CheckVar.__init__ "speed" (VInt 5) operator_eq ON_SUCCESS in
  (CheckVar.update ∅
     (CheckVar.initialise
        (CheckVar.terminate (CheckVar.update ∅ c ∅).2 FAILURE))
     (Examples.speed_bb 5)).1 = FAILURE.
Proof.
  simpl.
  eapply proj2, (check_failure_is_sticky ∅ ∅
                   (CheckVar.__init__ "speed" (VInt 5) operator_eq
                      ON_SUCCESS) _ ∅).
  - reflexivity.
  - reflexivity.
  - apply undisturbed_initialise.
    apply undisturbed_terminate; [discriminate |].
    apply undisturbed_refl.
Defined.

(** A reachable wait that returned [RUNNING] has stored nothing: it is
    unchanged, and its next [update] evaluates the store afresh. *)
Theorem wait_polls_while_running (w : WaitVar.t) (bb bb' : pydict) :
  WaitVar.reachable w ->
  (WaitVar.update w bb).1 = RUNNING ->
  (WaitVar.update w bb).2 = w
  /\ (WaitVar.update (WaitVar.update w bb).2 bb').1 = WaitVar.evaluate w bb'.
Proof.
  intros Hreach Hrun.
  destruct (wait_cache_invariant w Hreach) as [[Hm | Hm] _].
  - assert (Hsame : (WaitVar.update w bb).2 = w).
    { rewrite (wait_update_uncached w bb Hm) in Hrun.
      unfold WaitVar.update. rewrite Hm, Hrun. done. }
    split; [exact Hsame |].
    rewrite Hsame. by apply wait_update_uncached.
  - unfold WaitVar.update in Hrun. rewrite Hm in Hrun. done.
Qed.

Lemma wait_polls_while_running_witness :
  let w := WaitVar.__init__ "ready" (VBool true) operator_eq ON_INITIALISE in
  (WaitVar.update w ∅).2 = w.
Proof.
  simpl.
  eapply proj1, (wait_polls_while_running
                   (WaitVar.__init__ "ready" (VBool true) operator_eq
                      ON_INITIALISE) ∅ ∅).
  - apply WaitVar.reachable_init.
  - reflexivity.
Defined.

(** Under [ON_INITIALISE] a wait latches its [SUCCESS]: the next [update]
    returns [SUCCESS] whatever the store holds then, and changes nothing. *)
Theorem wait_latches_success (w : WaitVar.t) (bb bb' : pydict) :
  WaitVar.clearing_policy w = ON_INITIALISE ->
  (WaitVar.update w bb).1 = SUCCESS ->
  WaitVar.update (WaitVar.update w bb).2 bb'
  = (SUCCESS, (WaitVar.update w bb).2).
Proof.
  intros Hpol. unfold WaitVar.update.
  destruct (WaitVar.matching_result w) as [r |] eqn:Hm; simpl.
  - intros ->. by rewrite Hm.
  - rewrite Hpol.
    destruct (bool_decide (WaitVar.evaluate w bb = SUCCESS)) eqn:Hs; simpl.
    + apply bool_decide_eq_true in Hs. rewrite Hs. simpl. done.
    + apply bool_decide_eq_false in Hs. intros Hres.
      destruct (bool_decide (WaitVar.evaluate w bb ≠ RUNNING));
        simpl in Hres; done.
Qed.

Lemma wait_latches_success_witness :
  let w := WaitVar.__init__ "ready" (VBool true) operator_eq ON_INITIALISE in
  WaitVar.update (WaitVar.update w {[ "ready" := VBool true ]}).2 ∅
  = (SUCCESS, (WaitVar.update w {[ "ready" := VBool true ]}).2).
Proof.
  simpl.
  apply (wait_latches_success
           (WaitVar.__init__ "ready" (VBool true) operator_eq ON_INITIALISE)).
  - reflexivity.
  - reflexivity.
Defined.

(** ** Removing watchers *)

Lemma shutdown_loop_not_found {pickle : Type}
    (subs : list (SubBlackboard.t pickle)) (req : string) :
  req ∉ SubBlackboard.topic_name <$> subs ->
  ROSBlackboard.shutdown_loop subs req = (false, subs).
Proof.
  induction subs as [| w subs IH]; simpl; [done |].
  intros Hnotin. apply not_elem_of_cons in Hnotin as [Hne Hnotin].
  rewrite bool_decide_eq_false_2 by done.
  by rewrite (IH Hnotin).
Qed.

Lemma shutdown_loop_found {pickle : Type}
    (subs : list (SubBlackboard.t pickle)) (req : string) :
  req ∈ SubBlackboard.topic_name <$> subs ->
  exists l1 w l2,
    subs = l1 ++ w :: l2
    /\ SubBlackboard.topic_name w = req
    /\ (req ∉ SubBlackboard.topic_name <$> l1)
    /\ ROSBlackboard.shutdown_loop subs req = (true, l1 ++ l2).
Proof.
  induction subs as [| w subs IH]; simpl.
  - by intros ?%not_elem_of_nil.
  - intros Hin. case_bool_decide as Hw.
    + exists [], w, subs. split_and!; [done | done | | done].
      apply not_elem_of_nil.
    + apply elem_of_cons in Hin as [Heq | Hin]; [done |].
      destruct (IH Hin) as (l1 & w' & l2 & -> & Hname & Hnotin & ->).
      exists (w :: l1), w', l2. split_and!; [done | done | | done].
      simpl. apply not_elem_of_cons. split; [congruence | done].
Qed.

Lemma shutdown_not_found {pickle : Type} (rb : ROSBlackboard.t pickle)
    (req : string) :
  req ∉ topic_names rb ->
  ROSBlackboard.shutdown_sub_blackboard rb req = (false, rb).
Proof.
  intros Hnotin. unfold ROSBlackboard.shutdown_sub_blackboard.
  rewrite (shutdown_loop_not_found _ _ Hnotin). by destruct rb.
Qed.

(** [shutdown_sub_blackboard] returns [False] exactly when no active
    watcher has the requested topic name, and then it changes nothing. *)
Theorem shutdown_unknown_topic {pickle : Type} (rb : ROSBlackboard.t pickle)
    (req : string) :
  ((ROSBlackboard.shutdown_sub_blackboard rb req).1 = false
   <-> req ∉ topic_names rb)
  /\ (req ∉ topic_names rb ->
      ROSBlackboard.shutdown_sub_blackboard rb req = (false, rb)).
Proof.
  pose proof (shutdown_not_found rb req) as Hnone.
  split; [| exact Hnone]. split.
  - intros Hfalse Hin.
    destruct (shutdown_loop_found _ _ Hin) as (l1 & w & l2 & _ & _ & _ & Hl).
    unfold ROSBlackboard.shutdown_sub_blackboard in Hfalse.
    rewrite Hl in Hfalse. done.
  - intros Hnotin. by rewrite (Hnone Hnotin).
Qed.

Lemma shutdown_unknown_topic_witness :
  ROSBlackboard.shutdown_sub_blackboard Examples.rb_two "sub_blackboard_7"
  = (false, Examples.rb_two).
Proof.
  apply (shutdown_unknown_topic Examples.rb_two "sub_blackboard_7").
  intros Hin. apply elem_of_cons in Hin as [Heq | Hin]; [discriminate Heq |].
  apply elem_of_cons in Hin as [Heq | Hin]; [discriminate Heq |].
  by apply not_elem_of_nil in Hin.
Defined.

(** When a watcher has the requested topic name, [shutdown_sub_blackboard]
    returns [True] and removes the first such watcher and nothing else: the
    watchers before and after it stay, in their order, and the cache of the
    blackboard is not touched. *)
Theorem shutdown_removes_first {pickle : Type} (rb : ROSBlackboard.t pickle)
    (req : string) :
  req ∈ topic_names rb ->
  exists l1 w l2,
    ROSBlackboard.sub_blackboards rb = l1 ++ w :: l2
    /\ SubBlackboard.topic_name w = req
    /\ (req ∉ SubBlackboard.topic_name <$> l1)
    /\ ROSBlackboard.shutdown_sub_blackboard rb req
       = (true,
          ROSBlackboard.Build (ROSBlackboard.cached_blackboard_dict rb)
            (l1 ++ l2)).
Proof.
  intros Hin.
  destruct (shutdown_loop_found _ _ Hin) as (l1 & w & l2 & Hs & Hn & Hl1 & Hl).
  exists l1, w, l2. split_and!; [done | done | done |].
  unfold ROSBlackboard.shutdown_sub_blackboard. by rewrite Hl.
Qed.

Lemma shutdown_removes_first_witness :
  exists l1 w l2,
    ROSBlackboard.sub_blackboards Examples.rb_two = l1 ++ w :: l2
    /\ SubBlackboard.topic_name w = "sub_blackboard_1"
    /\ ("sub_blackboard_1" ∉ SubBlackboard.topic_name <$> l1)
    /\ ROSBlackboard.shutdown_sub_blackboard Examples.rb_two
         "sub_blackboard_1"
       = (true,
          ROSBlackboard.Build
            (ROSBlackboard.cached_blackboard_dict Examples.rb_two)
            (l1 ++ l2)).
Proof.
  apply (shutdown_removes_first Examples.rb_two "sub_blackboard_1").
  apply list_elem_of_further, list_elem_of_here.
Defined.

(** Registering a watcher under a name no active watcher has, and then
    shutting that name down, gives the manager back. *)
Theorem register_then_shutdown {pickle : Type} (rb : ROSBlackboard.t pickle)
    (l : list string) (topic_name : option string) (name : string) :
  (ROSBlackboard.initialize_sub_blackboard rb (AttrsList l) topic_name).1
  = Some name ->
  name ∉ topic_names rb ->
  ROSBlackboard.shutdown_sub_blackboard
    (ROSBlackboard.initialize_sub_blackboard rb (AttrsList l) topic_name).2
    name
  = (true, rb).
Proof.
  simpl. intros [= Hname] Hnotin. rewrite Hname.
  unfold ROSBlackboard.shutdown_sub_blackboard; simpl.
  assert (Hloop : forall subs : list (SubBlackboard.t pickle),
             name ∉ SubBlackboard.topic_name <$> subs ->
             ROSBlackboard.shutdown_loop
               (subs ++ [SubBlackboard.__init__ name l]) name
             = (true, subs)).
  { induction subs as [| w subs IH]; simpl.
    - intros _. by rewrite bool_decide_eq_true_2.
    - intros [Hne Hrest]%not_elem_of_cons.
      rewrite bool_decide_eq_false_2 by done.
      by rewrite (IH Hrest). }
  rewrite (Hloop _ Hnotin). by destruct rb.
Qed.

Lemma register_then_shutdown_witness :
  ROSBlackboard.shutdown_sub_blackboard
    (ROSBlackboard.initialize_sub_blackboard
       Examples.rb_empty (AttrsList ["speed"]) (Some "watch")).2 "watch"
  = (true, Examples.rb_empty).
Proof.
  apply (register_then_shutdown Examples.rb_empty ["speed"] (Some "watch")).
  - reflexivity.
  - apply not_elem_of_nil.
Defined.

(** ** The watcher services *)

(** [spawn_blackboard_watcher_service] answers a list of paths, even an
    empty one, with the absolute name of the new topic, never with [None];
    the watcher itself is registered under the relative name.  So as long
    as the node name starts with a slash and no watcher's topic name does,
    [destroy_blackboard_watcher_service] called with the name that spawn
    answered finds no watcher and changes nothing. *)
Theorem spawn_answer_is_not_a_destroy_request {pickle : Type}
    (node_name : string) (rb : ROSBlackboard.t pickle) (l : list string) :
  PyStr.startswith "/" node_name = true ->
  (forall w, w ∈ ROSBlackboard.sub_blackboards rb ->
             PyStr.startswith "/" (SubBlackboard.topic_name w) = false) ->
  exists name,
    name = "sub_blackboard_"
           +:+ pretty (length (ROSBlackboard.sub_blackboards rb))
    /\ Services.spawn_blackboard_watcher_service node_name rb (AttrsList l)
       = (Some (node_name +:+ "/" +:+ name),
          (ROSBlackboard.initialize_sub_blackboard rb (AttrsList l) None).2)
    /\ (name ∈ topic_names
                 (Services.spawn_blackboard_watcher_service
                    node_name rb (AttrsList l)).2)
    /\ Services.destroy_blackboard_watcher_service
         (Services.spawn_blackboard_watcher_service
            node_name rb (AttrsList l)).2
         (node_name +:+ "/" +:+ name)
       = (false,
          (Services.spawn_blackboard_watcher_service
             node_name rb (AttrsList l)).2).
Proof.
  intros Hnode Hsubs. eexists. split; [reflexivity |].
  split_and!.
  - reflexivity.
  - unfold topic_names. simpl. rewrite fmap_app.
    apply elem_of_app. right. apply list_elem_of_here.
  - unfold Services.destroy_blackboard_watcher_service.
    apply shutdown_not_found.
    unfold topic_names. simpl. rewrite fmap_app.
    intros [Hin | Hin]%elem_of_app.
    + apply list_elem_of_fmap in Hin as (w & Heq & Hw).
      specialize (Hsubs w Hw). rewrite <- Heq in Hsubs.
      destruct node_name; simpl in *; congruence.
    + apply list_elem_of_singleton in Hin. simpl in Hin.
      destruct node_name as [| c n]; [done |]. simpl in Hnode.
      apply Ascii.eqb_eq in Hnode. subst c. discriminate Hin.
Qed.

Lemma spawn_answer_is_not_a_destroy_request_witness :
  exists name,
    name = "sub_blackboard_0"
    /\ Services.spawn_blackboard_watcher_service "/tree" Examples.rb_empty
         (AttrsList [])
       = (Some ("/tree/" +:+ name),
          (ROSBlackboard.initialize_sub_blackboard
             Examples.rb_empty (AttrsList []) None).2)
    /\ (name ∈ topic_names
                 (Services.spawn_blackboard_watcher_service
                    "/tree" Examples.rb_empty (AttrsList [])).2)
    /\ Services.destroy_blackboard_watcher_service
         (Services.spawn_blackboard_watcher_service
            "/tree" Examples.rb_empty (AttrsList [])).2
         ("/tree/" +:+ name)
       = (false,
          (Services.spawn_blackboard_watcher_service
             "/tree" Examples.rb_empty (AttrsList [])).2).
Proof.
  apply (spawn_answer_is_not_a_destroy_request "/tree" Examples.rb_empty []).
  - reflexivity.
  - intros w Hw. by apply not_elem_of_nil in Hw.
Defined.

(** ** The publish cycle *)

Section PublishCycle.

Context {pickle : Type} `{!EqDecision pickle}.
Variable h : heap.
Variable dumps : heap -> pydict -> pickle.

(** Updating a watcher twice from the same store is updating it once. *)
Lemma update_fold_idempotent (bb d : pydict) (attrs : list string) :
  foldl (SubBlackboard.update_one h bb)
        (foldl (SubBlackboard.update_one h bb) d attrs) attrs
  = foldl (SubBlackboard.update_one h bb) d attrs.
Proof.
  apply map_eq. intros k. rewrite !update_fold_lookup.
  destruct (SubBlackboard.check_attr h k bb); [| done].
  by case_decide.
Qed.

(** A second change check of a watcher on the same store reports no change
    and leaves the watcher as the first check left it. *)
Lemma sub_is_changed_twice (w : SubBlackboard.t pickle) (bb : pydict) :
  SubBlackboard.is_changed h dumps
    (SubBlackboard.is_changed h dumps w bb).2 bb
  = (false, (SubBlackboard.is_changed h dumps w bb).2).
Proof.
  unfold SubBlackboard.is_changed, SubBlackboard.update_sub_blackboard.
  simpl. rewrite update_fold_idempotent.
  by rewrite bool_decide_eq_true_2.
Qed.

Lemma sub_is_changed_topic (w : SubBlackboard.t pickle) (bb : pydict) :
  SubBlackboard.topic_name (SubBlackboard.is_changed h dumps w bb).2
  = SubBlackboard.topic_name w.
Proof. reflexivity. Qed.

Lemma publish_subs_twice (get_num_connections : string -> nat) (bb : pydict)
    (subs : list (SubBlackboard.t pickle)) :
  ROSBlackboard.publish_subs h dumps get_num_connections bb
    (ROSBlackboard.publish_subs h dumps get_num_connections bb subs).1
  = ((ROSBlackboard.publish_subs h dumps get_num_connections bb subs).1, []).
Proof.
  induction subs as [| w subs IH]; [done |].
  cbn [ROSBlackboard.publish_subs].
  destruct (ROSBlackboard.publish_subs h dumps get_num_connections bb subs)
    as [rest outs] eqn:Hrest.
  simpl in IH.
  destruct (0 <? get_num_connections ("~" +:+ SubBlackboard.topic_name w))%nat
    eqn:Hconn.
  - assert (Hstep : forall out : list event,
               ROSBlackboard.publish_subs h dumps get_num_connections bb
                 ((SubBlackboard.is_changed h dumps w bb).2 :: rest)
               = ((SubBlackboard.is_changed h dumps w bb).2 :: rest, [])).
    { intros _. cbn [ROSBlackboard.publish_subs].
      rewrite sub_is_changed_topic, Hconn, sub_is_changed_twice, IH. done. }
    destruct (SubBlackboard.is_changed h dumps w bb) as [changed w'] eqn:Hw.
    simpl in Hstep. destruct changed; simpl; by apply Hstep.
  - simpl. cbn [ROSBlackboard.publish_subs]. rewrite Hconn, IH. done.
Qed.

Lemma publish_subs_no_subscriber (get_num_connections : string -> nat)
    (bb : pydict) (subs : list (SubBlackboard.t pickle)) :
  (forall topic, get_num_connections topic = 0) ->
  ROSBlackboard.publish_subs h dumps get_num_connections bb subs = (subs, []).
Proof.
  intros Hzero. induction subs as [| w subs IH]; [done |].
  cbn [ROSBlackboard.publish_subs]. rewrite Hzero, IH. done.
Qed.

(** What the loop over the watchers publishes, and that it keeps their
    topic names. *)
Lemma publish_subs_events (get_num_connections : string -> nat) (bb : pydict)
    (subs : list (SubBlackboard.t pickle)) :
  (forall topic content,
      Publish topic content
      ∈ (ROSBlackboard.publish_subs h dumps get_num_connections bb subs).2 ->
      0 < get_num_connections topic
      /\ exists w,
           w ∈ subs
           /\ topic = "~" +:+ SubBlackboard.topic_name w
           /\ content = SubBlackboard.dict
                          (SubBlackboard.update_sub_blackboard h w bb))
  /\ SubBlackboard.topic_name
       <$> (ROSBlackboard.publish_subs h dumps get_num_connections bb subs).1
     = SubBlackboard.topic_name <$> subs
  /\ length (ROSBlackboard.publish_subs h dumps get_num_connections bb subs).2
     <= length subs.
Proof.
  induction subs as [| w subs (IHev & IHnames & IHlen)].
  - split_and!; [| done | done]. intros topic content Hin.
    by apply not_elem_of_nil in Hin.
  - cbn [ROSBlackboard.publish_subs].
    destruct (ROSBlackboard.publish_subs h dumps get_num_connections bb subs)
      as [rest outs] eqn:Hrest.
    simpl in IHev, IHnames, IHlen.
    assert (Hlater : forall topic content,
               Publish topic content ∈ outs ->
               0 < get_num_connections topic
               /\ exists w0,
                    w0 ∈ w :: subs
                    /\ topic = "~" +:+ SubBlackboard.topic_name w0
                    /\ content = SubBlackboard.dict
                                   (SubBlackboard.update_sub_blackboard
                                      h w0 bb)).
    { intros topic content Hin.
      destruct (IHev topic content Hin) as (Hpos & w0 & Hw0 & Ht & Hc).
      split; [done |]. exists w0. split; [by apply list_elem_of_further |].
      done. }
    destruct (0 <? get_num_connections
                     ("~" +:+ SubBlackboard.topic_name w))%nat eqn:Hconn.
    + apply Nat.ltb_lt in Hconn.
      unfold SubBlackboard.is_changed.
      destruct (pickle_ne _ _); simpl.
      * split_and!; [| by f_equal | lia].
        intros topic content [Heq | Hin]%elem_of_cons; [| by apply Hlater].
        injection Heq as -> ->. split; [done |].
        exists w. split; [apply list_elem_of_here | done].
      * split_and!; [exact Hlater | by f_equal | lia].
    + simpl. split_and!; [exact Hlater | by f_equal | lia].
Qed.

(** [publish_blackboard] in one piece: the manager afterwards and the
    publications. *)
Lemma publish_blackboard_unfold (rb : ROSBlackboard.t pickle) (bb : pydict)
    (get_num_connections : string -> nat) :
  ROSBlackboard.publish_blackboard h dumps rb bb get_num_connections
  = (ROSBlackboard.Build
       (if (0 <? get_num_connections "~blackboard")%nat
        then CachedPickle (dumps h bb)
        else ROSBlackboard.cached_blackboard_dict rb)
       (ROSBlackboard.publish_subs h dumps get_num_connections bb
          (ROSBlackboard.sub_blackboards rb)).1,
     (if (0 <? get_num_connections "~blackboard")%nat
         && pickle_ne (dumps h bb) (ROSBlackboard.cached_blackboard_dict rb)
      then [Publish "~blackboard" bb] else [])
     ++ (ROSBlackboard.publish_subs h dumps get_num_connections bb
           (ROSBlackboard.sub_blackboards rb)).2).
Proof.
  unfold ROSBlackboard.publish_blackboard, ROSBlackboard.is_changed.
  destruct (0 <? get_num_connections "~blackboard")%nat;
    [destruct (pickle_ne _ _) |]; simpl;
    by destruct (ROSBlackboard.publish_subs _ _ _ _ _).
Qed.

End PublishCycle.

(** With no subscriber on any topic [publish_blackboard] publishes nothing
    and changes nothing: no watcher is updated and no pickle is cached. *)
Theorem publish_without_subscribers {pickle : Type} `{!EqDecision pickle}
    (h : heap) (dumps : heap -> pydict -> pickle)
    (rb : ROSBlackboard.t pickle) (bb : pydict)
    (get_num_connections : string -> nat) :
  (forall topic, get_num_connections topic = 0) ->
  ROSBlackboard.publish_blackboard h dumps rb bb get_num_connections
  = (rb, []).
Proof.
  intros Hzero. unfold ROSBlackboard.publish_blackboard.
  rewrite Hzero. simpl.
  rewrite (publish_subs_no_subscriber h dumps _ bb _ Hzero).
  by destruct rb.
Qed.

Lemma publish_without_subscribers_witness :
  ROSBlackboard.publish_blackboard ∅ digest Examples.rb_two
    (Examples.speed_bb 1) (fun _ => 0)
  = (Examples.rb_two, []).
Proof.
  apply (publish_without_subscribers ∅ digest Examples.rb_two
           (Examples.speed_bb 1) (fun _ => 0)).
  intros topic. reflexivity.
Defined.

(** Publishing is idempotent: whatever [dumps] is, a second
    [publish_blackboard] on the same store with the same subscribers
    publishes nothing and leaves the manager as the first one left it. *)
Theorem publish_is_idempotent {pickle : Type} `{!EqDecision pickle}
    (h : heap) (dumps : heap -> pydict -> pickle)
    (rb : ROSBlackboard.t pickle) (bb : pydict)
    (get_num_connections : string -> nat) :
  ROSBlackboard.publish_blackboard h dumps
    (ROSBlackboard.publish_blackboard h dumps rb bb get_num_connections).1
    bb get_num_connections
  = ((ROSBlackboard.publish_blackboard h dumps rb bb get_num_connections).1,
     []).
Proof.
  rewrite (publish_blackboard_unfold h dumps rb), publish_blackboard_unfold.
  cbn [fst snd ROSBlackboard.sub_blackboards
       ROSBlackboard.cached_blackboard_dict].
  rewrite publish_subs_twice. cbn [fst snd].
  destruct (0 <? get_num_connections "~blackboard")%nat; simpl; [| done].
  by rewrite bool_decide_eq_true_2.
Qed.

(** [publish_blackboard] only publishes on topics that have a subscriber:
    the store itself on [~blackboard], or the freshly updated dictionary of
    a watcher on that watcher's topic; there is at most one publication for
    the store and one per watcher, and the watchers keep their topic
    names. *)
Theorem publish_only_to_subscribers {pickle : Type} `{!EqDecision pickle}
    (h : heap) (dumps : heap -> pydict -> pickle)
    (rb : ROSBlackboard.t pickle) (bb : pydict)
    (get_num_connections : string -> nat) :
  (forall topic content,
      Publish topic content
      ∈ (ROSBlackboard.publish_blackboard h dumps rb bb
           get_num_connections).2 ->
      0 < get_num_connections topic
      /\ ((topic = "~blackboard" /\ content = bb)
          \/ exists w,
               w ∈ ROSBlackboard.sub_blackboards rb
               /\ topic = "~" +:+ SubBlackboard.topic_name w
               /\ content = SubBlackboard.dict
                              (SubBlackboard.update_sub_blackboard h w bb)))
  /\ topic_names
       (ROSBlackboard.publish_blackboard h dumps rb bb get_num_connections).1
     = topic_names rb
  /\ length (ROSBlackboard.publish_blackboard h dumps rb bb
               get_num_connections).2
     <= S (length (ROSBlackboard.sub_blackboards rb)).
Proof.
  unfold ROSBlackboard.publish_blackboard, topic_names.
  destruct (publish_subs_events h dumps get_num_connections bb
              (ROSBlackboard.sub_blackboards rb)) as (Hev & Hnames & Hlen).
  assert (Hsub : forall topic content,
             Publish topic content
             ∈ (ROSBlackboard.publish_subs h dumps get_num_connections bb
                  (ROSBlackboard.sub_blackboards rb)).2 ->
             0 < get_num_connections topic
             /\ ((topic = "~blackboard" /\ content = bb)
                 \/ exists w,
                      w ∈ ROSBlackboard.sub_blackboards rb
                      /\ topic = "~" +:+ SubBlackboard.topic_name w
                      /\ content = SubBlackboard.dict
                                     (SubBlackboard.update_sub_blackboard
                                        h w bb))).
  { intros topic content Hin.
    destruct (Hev topic content Hin) as (Hpos & w & Hw). eauto. }
  destruct (0 <? get_num_connections "~blackboard")%nat eqn:Hroot.
  - apply Nat.ltb_lt in Hroot. unfold ROSBlackboard.is_changed.
    destruct (pickle_ne _ _); simpl;
      destruct (ROSBlackboard.publish_subs h dumps get_num_connections bb
                  (ROSBlackboard.sub_blackboards rb)) as [subs outs];
      simpl in *.
    + split_and!; [| done | lia].
      intros topic content [Heq | Hin]%elem_of_cons; [| by apply Hsub].
      injection Heq as -> ->. split; [done | by left].
    + split_and!; [exact Hsub | done | lia].
  - destruct (ROSBlackboard.publish_subs h dumps get_num_connections bb
                (ROSBlackboard.sub_blackboards rb)) as [subs outs].
    simpl in *. split_and!; [exact Hsub | done | lia].
Qed.

Lemma publish_only_to_subscribers_witness :
  0 < (fun topic : string =>
         if bool_decide (topic = "~sub_blackboard_0") then 1 else 0)
        "~sub_blackboard_0".
Proof.
  destruct (publish_only_to_subscribers ∅ digest Examples.rb_two
              (Examples.speed_bb 1)
              (fun topic : string =>
                 if bool_decide (topic = "~sub_blackboard_0") then 1 else 0))
    as (H & _ & _).
  refine (proj1 (H "~sub_blackboard_0" (Examples.speed_bb 1) _)).
  vm_compute. apply list_elem_of_here.
Defined.

(** ** What get_nested_keys lists *)


Lemma sorted_keys_elem (bb : pydict) (key : string) :
  key ∈ ROSBlackboard.sorted_keys bb <-> is_Some (bb !! key).
Proof.
  split.
  - intros [v Hv]%sorted_keys_lookup. by exists v.
  - intros [v Hv]. unfold ROSBlackboard.sorted_keys.
    rewrite merge_sort_Permutation.
    apply list_elem_of_fmap. exists (key, v).
    split; [done | by apply elem_of_map_to_list].
Qed.



Lemma well_formed_listing_snoc_key (bb : pydict) (l : list string)
    (key : string) :
  is_Some (bb !! key) ->
  well_formed_listing bb l -> well_formed_listing bb (l ++ [key]).
Proof.
  intros Hkey Hwf p [Hp | Hp]%elem_of_app.
  - destruct (Hwf p Hp) as [? | (k & attr & -> & Hk & Hf)]; [by left |].
    right. exists k, attr. split; [done |].
    split; [apply elem_of_app; by left | done].
  - apply list_elem_of_singleton in Hp as ->. by left.
Qed.

Lemma well_formed_listing_snoc_attr (bb : pydict) (l : list string)
    (k attr : string) :
  k ∈ l ->
  PyStr.startswith "_" attr = false ->
  PyStr.isupper attr = false ->
  well_formed_listing bb l ->
  well_formed_listing bb (l ++ [k +:+ "/" +:+ attr]).
Proof.
  intros Hk Hpub Hup Hwf p [Hp | Hp]%elem_of_app.
  - destruct (Hwf p Hp) as [? | (k' & attr' & -> & Hk' & Hf)]; [by left |].
    right. exists k', attr'. split; [done |].
    split; [apply elem_of_app; by left | done].
  - apply list_elem_of_singleton in Hp as ->.
    right. exists k, attr. split; [done |].
    split; [apply elem_of_app; by left | done].
Qed.

(** [inner] only appends to [variables], and keeps a listing well formed. *)
Lemma inner_listing (h : heap) (bb : pydict) (fuel : nat) :
  forall (v : value) (k : string) (variables l : list string),
    k ∈ variables ->
    well_formed_listing bb variables ->
    ROSBlackboard.inner h fuel v k variables = Some (Ok l) ->
    well_formed_listing bb l /\ exists suffix, l = variables ++ suffix.
Proof.
  induction fuel as [| fuel IH]; intros v k variables l Hk Hwf; [done |].
  cbn [ROSBlackboard.inner].
  generalize (dir_type h v) as names. intros names.
  revert variables Hk Hwf.
  induction names as [| attr names IHnames]; intros variables Hk Hwf; simpl.
  - intros [= <-]. split; [done |]. exists []. by rewrite app_nil_r.
  - destruct (negb (isinstance_leaf v)); [| by apply IHnames].
    destruct (negb (PyStr.startswith "_" attr)) eqn:Hpub; [| by apply IHnames].
    destruct (py_getattr h v attr) as [v' |]; [| done].
    destruct (negb (callable h v')); [| by apply IHnames].
    destruct (negb (PyStr.isupper attr)) eqn:Hup; [| by apply IHnames].
    apply negb_true_iff in Hpub, Hup.
    destruct (ROSBlackboard.inner h fuel v' _ _) as [[l1 |] |] eqn:Hcall;
      [| done | done].
    apply IH in Hcall as [Hwf1 [s1 ->]].
    + intros Hrest. apply IHnames in Hrest as [Hwf2 [s2 ->]].
      * split; [done |]. exists ([k +:+ "/" +:+ attr] ++ s1 ++ s2).
        by rewrite <- !app_assoc.
      * rewrite <- app_assoc. apply elem_of_app. by left.
      * done.
    + apply elem_of_app. right. apply list_elem_of_here.
    + by apply well_formed_listing_snoc_attr.
Qed.

(** When [get_nested_keys] returns, its list holds every variable name of
    the store, and every other entry is a path [k/attr] whose parent [k] is
    in the list too and whose last segment [attr] neither starts with an
    underscore nor is an all-uppercase name. *)
Theorem get_nested_keys_listing (h : heap) (fuel : nat) (bb : pydict)
    (l : list string) :
  ROSBlackboard.get_nested_keys h fuel bb = Some (Ok l) ->
  (forall key, is_Some (bb !! key) -> key ∈ l)
  /\ well_formed_listing bb l.
Proof.
  unfold ROSBlackboard.get_nested_keys. intros Hret.
  assert (Hloop : forall keys variables l0,
             well_formed_listing bb variables ->
             ROSBlackboard.get_nested_keys_loop h fuel bb keys variables
             = Some (Ok l0) ->
             well_formed_listing bb l0
             /\ (forall p, p ∈ variables -> p ∈ l0)
             /\ (forall key, key ∈ keys -> key ∈ l0)).
  { induction keys as [| key keys IH]; intros variables l0 Hwf; simpl.
    - intros [= <-]. split_and!; [done | done |].
      intros key Hin. by apply not_elem_of_nil in Hin.
    - unfold Blackboard.getattr.
      destruct (bb !! key) as [v |] eqn:Hv; [| done].
      destruct (ROSBlackboard.inner h fuel v key (variables ++ [key]))
        as [[l1 |] |] eqn:Hinner; [| done | done].
      apply (inner_listing h bb) in Hinner as [Hwf1 [s1 ->]].
      + intros Hrest. apply IH in Hrest as (Hwf2 & Hkeep & Hkeys); [| done].
        split_and!; [done | |].
        * intros p Hp. apply Hkeep.
          rewrite <- app_assoc. apply elem_of_app. by left.
        * intros k [-> | Hk]%elem_of_cons; [| by apply Hkeys].
          apply Hkeep. rewrite <- app_assoc.
          apply elem_of_app. right. apply list_elem_of_here.
      + apply elem_of_app. right. apply list_elem_of_here.
      + apply well_formed_listing_snoc_key; [by exists v | done]. }
  apply Hloop in Hret as (Hwf & _ & Hkeys).
  - split; [| done]. intros key Hkey. by apply Hkeys, sorted_keys_elem.
  - intros p Hp. by apply not_elem_of_nil in Hp.
Qed.

Lemma get_nested_keys_listing_witness :
  "a" ∈ ["a"; "a/b"] /\ well_formed_listing Examples.nested_bb ["a"; "a/b"].
Proof.
  destruct (get_nested_keys_listing Examples.nested_heap 2
              Examples.nested_bb ["a"; "a/b"]) as [Hkeys Hwf].
  - reflexivity.
  - split; [| exact Hwf]. apply Hkeys. exists (VRef 0%nat). reflexivity.
Defined.

(** ** The two separators of a watched path *)

Lemma join_cons_char (c : ascii) (w : string) (ws : list string) :
  PyStr.join "." (String c w :: ws) = String c (PyStr.join "." (w :: ws)).
Proof. by destruct ws. Qed.

(** A path with its slashes replaced by dots holds no slash. *)
Lemma dotted_no_slash (s : string) :
  PyStr.contains "/" (PyStr.join "." (PyStr.split "/" s)) = false.
Proof.
  induction s as [| c s IH]; [done |].
  cbn [PyStr.split].
  destruct (PyStr.split "/" s) as [| w ws] eqn:Hsplit;
    [by apply split_nonempty in Hsplit |].
  destruct (Ascii.eqb c "/") eqn:Hc.
  - change (PyStr.join "." ("" :: w :: ws))
      with (String "." (PyStr.join "." (w :: ws))).
    cbn [PyStr.contains]. exact IH.
  - rewrite join_cons_char. cbn [PyStr.contains]. rewrite Hc. exact IH.
Qed.

(** A watched path resolves the same way with slashes and with dots in
    their place: [update_sub_blackboard] reads [a/b] and [a.b] as the same
    path into the store, the attribute [b] of the variable [a]. *)
Theorem check_attr_separators (h : heap) (attr : string) (bb : pydict) :
  SubBlackboard.check_attr h attr bb
  = attrgetter h (PyStr.join "." (PyStr.split "/" attr)) bb
  /\ SubBlackboard.check_attr h (PyStr.join "." (PyStr.split "/" attr)) bb
     = SubBlackboard.check_attr h attr bb.
Proof.
  assert (Hdirect : SubBlackboard.check_attr h attr bb
                    = attrgetter h (PyStr.join "." (PyStr.split "/" attr)) bb).
  { unfold SubBlackboard.check_attr.
    destruct (PyStr.contains "/" attr) eqn:Hslash; [done |].
    by rewrite (split_no_sep _ _ Hslash). }
  split; [exact Hdirect |].
  rewrite Hdirect. unfold SubBlackboard.check_attr.
  by rewrite dotted_no_slash.
Qed.

(** ** The text form *)

Lemma length_append (s1 s2 : string) :
  String.length (s1 +:+ s2) = String.length s1 + String.length s2.
Proof. induction s1 as [| c s1 IH]; simpl; [done | by rewrite IH]. Qed.

Lemma append_assoc (s1 s2 s3 : string) :
  (s1 +:+ s2) +:+ s3 = s1 +:+ (s2 +:+ s3).
Proof.
  induction s1 as [| c s1 IH]; [reflexivity |].
  change (String c ((s1 +:+ s2) +:+ s3) = String c (s1 +:+ s2 +:+ s3)).
  by f_equal.
Qed.

Lemma length_spaces (n : nat) : String.length (Rendering.spaces n) = n.
Proof. induction n as [| n IH]; simpl; [done | by rewrite IH]. Qed.

Lemma max_length_ge (keys : list string) (k : string) :
  k ∈ keys -> String.length k <= Rendering.max_length keys.
Proof.
  unfold Rendering.max_length.
  assert (Hfold : forall (l : list string) (m : nat),
             m <= foldl (fun max_length k0 =>
                           if (max_length <? String.length k0)%nat
                           then String.length k0 else max_length) m l
             /\ (k ∈ l ->
                 String.length k
                 <= foldl (fun max_length k0 =>
                             if (max_length <? String.length k0)%nat
                             then String.length k0 else max_length) m l)).
  { induction l as [| k0 l IH]; intros m; simpl.
    - split; [done | by intros ?%not_elem_of_nil].
    - destruct (m <? String.length k0)%nat eqn:Hlt.
      + apply Nat.ltb_lt in Hlt.
        destruct (IH (String.length k0)) as [Hge Hin]. split; [lia |].
        intros [-> | Hk]%elem_of_cons; [done | by apply Hin].
      + apply Nat.ltb_ge in Hlt.
        destruct (IH m) as [Hge Hin]. split; [done |].
        intros [-> | Hk]%elem_of_cons; [lia | by apply Hin]. }
  apply Hfold.
Qed.

Lemma append_empty_r (s : string) : s +:+ "" = s.
Proof.
  induction s as [| c s IH]; [reflexivity |].
  change (String c (s +:+ "") = String c s). by f_equal.
Qed.

Lemma render_lines_append (yellow reset : string) (lines : list string)
    (s : string) :
  Rendering.render_lines yellow reset lines s
  = s +:+ Rendering.render_lines yellow reset lines "".
Proof.
  unfold Rendering.render_lines.
  revert s. induction lines as [| line lines IH]; intros s; cbn [foldl].
  - by rewrite append_empty_r.
  - rewrite IH.
    rewrite (IH ("" +:+ yellow +:+ "    " +:+ line +:+ Rendering.nl
                 +:+ reset)).
    rewrite append_assoc. reflexivity.
Qed.

(** The entries of the text form are aligned: for every variable of the
    dictionary the loop appends, after what was rendered so far, the cyan
    code, two spaces, the key padded to one more than the length of the
    longest key, the reset code and a colon; so every colon stands in the
    same column. *)
Theorem render_key_aligned (cyan yellow reset : string)
    (format_value : value -> string) (d : pydict) (s key : string)
    (v : value) :
  d !! key = Some v ->
  String.length
    (Rendering.ljust key (Rendering.max_length (map_to_list d).*1 + 1))
  = Rendering.max_length (map_to_list d).*1 + 1
  /\ exists rest,
       Rendering.render_key cyan yellow reset format_value
         (Rendering.max_length (map_to_list d).*1) d s key
       = s +:+ cyan +:+ "  "
           +:+ Rendering.ljust key
                 (Rendering.max_length (map_to_list d).*1 + 1)
           +:+ reset +:+ ":" +:+ rest.
Proof.
  intros Hv. split.
  - unfold Rendering.ljust. rewrite length_append, length_spaces.
    assert (String.length key <= Rendering.max_length (map_to_list d).*1).
    { apply max_length_ge, list_elem_of_fmap. exists (key, v).
      split; [done | by apply elem_of_map_to_list]. }
    lia.
  - unfold Rendering.render_key. rewrite Hv.
    destruct v; try destruct (1 <? _)%nat;
      try (rewrite render_lines_append, !append_assoc);
      eexists; repeat (rewrite ?append_assoc; f_equal).
Qed.

Lemma render_key_aligned_witness :
  String.length
    (Rendering.ljust "x"
       (Rendering.max_length
          (map_to_list ({[ "x" := VNone; "speed" := VInt 1 ]} : pydict)).*1
        + 1)) = 6.
Proof.
  refine (proj1 (render_key_aligned "" "" "" (fun _ => "")
                   {[ "x" := VNone; "speed" := VInt 1 ]} "" "x" VNone _)).
  apply lookup_insert_eq.
Defined.

(** ** A check answers at once *)

(** In every state a check can reach, [update] returns [SUCCESS] or
    [FAILURE], never [RUNNING] or [INVALID], and what it leaves cached is
    the status it returned or nothing. *)
Theorem check_never_runs (h : heap) (c : CheckVar.t) (bb : pydict) :
  CheckVar.reachable c ->
  ((CheckVar.update h c bb).1 = SUCCESS \/ (CheckVar.update h c bb).1 = FAILURE)
  /\ (CheckVar.matching_result (CheckVar.update h c bb).2 = None
      \/ CheckVar.matching_result (CheckVar.update h c bb).2
         = Some (CheckVar.update h c bb).1).
Proof.
  intros Hreach.
  destruct (check_cache_invariant c Hreach) as [Hcache _].
  unfold CheckVar.update.
  destruct (CheckVar.matching_result c) as [r |] eqn:Hm; simpl.
  - rewrite Hm. split; [| by right].
    destruct Hcache as [? | [[= ->] | [= ->]]]; [done | by left | by right].
  - split.
    + assert (Hev : CheckVar.evaluate h c bb = SUCCESS
                    \/ CheckVar.evaluate h c bb = FAILURE).
      { unfold CheckVar.evaluate.
        destruct (attrgetter _ _ _); [| by right].
        destruct (is_None _); [by left |].
        destruct (CheckVar.comparison_operator _ _ _); [by left | by right]. }
      by destruct (_ && _).
    + destruct (_ && _); simpl; [by left | by right].
Qed.

Lemma check_never_runs_witness :
  let c := CheckVar.__init__ "speed" VNone operator_eq ON_INITIALISE in
  (CheckVar.update ∅ c ∅).1 = SUCCESS \/ (CheckVar.update ∅ c ∅).1 = FAILURE.
Proof.
  simpl.
  eapply proj1, (check_never_runs ∅
                   (CheckVar.__init__ "speed" VNone operator_eq ON_INITIALISE)
                   ∅).
  apply CheckVar.reachable_init.
Defined.
